(** * Chart builders of [pages/1_Graficos.py]

    A shallow embedding of [plot_line_chart], [plot_dual_line_chart] and
    [plot_bar_chart] together with the parts of Polars, Plotly and
    [datetime] they call.  A Polars [DataFrame] is a list of named, typed
    columns; the frames live in an object store, every Polars operation
    allocates its result there, and a builder is a computation over that
    store which returns a figure or raises. *)

From Stdlib Require Import ZArith QArith Qreduction Lia Ascii String.
From stdpp Require Import base decidable option list strings sorting pretty.

Local Open Scope string_scope.
Local Open Scope list_scope.
Local Open Scope Z_scope.

(** ** Dates and [date.strftime] *)

Module Dates.

Inductive month :=
  | January | February | March | April | May | June
  | July | August | September | October | November | December.

(** [datetime.date]: year, month, day. *)
Record date := mkdate { year : Z; month_of : month; day : Z }.

Global Instance month_eq_dec : EqDecision month.
Proof. solve_decision. Defined.

Global Instance date_eq_dec : EqDecision date.
Proof. solve_decision. Defined.

Definition month_number (m : month) : Z :=
  match m with
  | January => 1 | February => 2 | March => 3 | April => 4
  | May => 5 | June => 6 | July => 7 | August => 8
  | September => 9 | October => 10 | November => 11 | December => 12
  end.

(** Full month name of the C locale, the [%B] directive. *)
Definition month_name (m : month) : string :=
  match m with
  | January => "January" | February => "February" | March => "March"
  | April => "April" | May => "May" | June => "June"
  | July => "July" | August => "August" | September => "September"
  | October => "October" | November => "November" | December => "December"
  end.

(** Abbreviated month name, the [%b] directive. *)
Definition month_abbr (m : month) : string :=
  match m with
  | January => "Jan" | February => "Feb" | March => "Mar"
  | April => "Apr" | May => "May" | June => "Jun"
  | July => "Jul" | August => "Aug" | September => "Sep"
  | October => "Oct" | November => "Nov" | December => "Dec"
  end.

(** Chronological order: lexicographic on year, month, day. *)
Definition date_leb (a b : date) : bool :=
  if year a <? year b then true
  else if year b <? year a then false
  else if month_number (month_of a) <? month_number (month_of b) then true
  else if month_number (month_of b) <? month_number (month_of a) then false
  else day a <=? day b.

(** A number in [0, 99] as two decimal digits. *)
Definition two_digits (n : Z) : string :=
  pretty ((n `div` 10) `mod` 10) +:+ pretty (n `mod` 10).

(** One conversion directive.  Interpreted are [%B %b %Y %y %m %d %%], which
    cover the formats of this module.  The other directives of [strftime]
    (weekday names, day of the year, time fields) are not modelled: they
    are left in place with their percent sign, so what is proved about a
    format holds for formats made of the directives above. *)
Definition directive (c : ascii) (d : date) : string :=
  if Ascii.eqb c "B" then month_name (month_of d)
  else if Ascii.eqb c "b" then month_abbr (month_of d)
  else if Ascii.eqb c "Y" then pretty (year d)
  else if Ascii.eqb c "y" then two_digits (year d `mod` 100)
  else if Ascii.eqb c "m" then two_digits (month_number (month_of d))
  else if Ascii.eqb c "d" then two_digits (day d)
  else if Ascii.eqb c "%" then "%"
  else String "%"%char (String c EmptyString).

(** [d.strftime(fmt)] *)
Fixpoint strftime (fmt : string) (d : date) : string :=
  match fmt with
  | EmptyString => EmptyString
  | String c rest =>
      if Ascii.eqb c "%" then
        match rest with
        | EmptyString => "%"
        | String k rest' => directive k d +:+ strftime rest' d
        end
      else String c (strftime rest d)
  end.

End Dates.
Import Dates.

(** ** Polars values *)

(** A [Float64] cell.  Finite values are idealised as exact rationals kept
    in lowest terms (rounding is not modelled); the two infinities and NaN
    are what a division by zero produces. *)
Inductive float64 :=
  | Finite (q : Q)
  | Infinity (negative : bool)
  | NaN.

(** A column: its dtype and its cells, [None] being a null. *)
Inductive Series :=
  | Int64 (vs : list (option Z))
  | Float64 (vs : list (option float64))
  | Date (vs : list (option date))
  | Utf8 (vs : list (option string)).

(** A [DataFrame] is the list of its named columns, in order. *)
Abbreviation DataFrame := (list (string * Series)).

Definition series_len (s : Series) : nat :=
  match s with
  | Int64 vs => length vs
  | Float64 vs => length vs
  | Date vs => length vs
  | Utf8 vs => length vs
  end.

(** An operation that treats the cells of every dtype alike. *)
Definition series_lift (f : forall A, list (option A) -> list (option A))
    (s : Series) : Series :=
  match s with
  | Int64 vs => Int64 (f _ vs)
  | Float64 vs => Float64 (f _ vs)
  | Date vs => Date (f _ vs)
  | Utf8 vs => Utf8 (f _ vs)
  end.

(** [tail(n)]: the last [n] elements; for a negative [n], everything but
    the first [abs(n)].  Polars takes [n] as an unsigned 64-bit count and
    refuses a larger one; this model covers [n] below that limit. *)
Definition list_tail {A} (n : Z) (l : list A) : list A :=
  if n <? 0 then drop (Z.to_nat (- n)) l
  else drop (length l - Z.to_nat n)%nat l.

Definition series_tail (n : Z) : Series -> Series :=
  series_lift (fun _ => list_tail n).

(** [gather]: the cells at the given row numbers, in that order. *)
Definition gather {A} (idx : list nat) (l : list (option A)) : list (option A) :=
  (fun i => from_option id None (l !! i)) <$> idx.

Definition series_gather (idx : list nat) : Series -> Series :=
  series_lift (fun _ => gather idx).

(** *** Ordering of cells *)

Definition float_leb (a b : float64) : bool :=
  match a, b with
  | _, NaN => true
  | NaN, _ => false
  | Infinity true, _ => true
  | _, Infinity true => false
  | _, Infinity false => true
  | Infinity false, _ => false
  | Finite p, Finite q => Qle_bool p q
  end.

Section ArgSort.
Context {A : Type} (leb : A -> A -> bool).

(** Ascending order with nulls first, the default of [sort]. *)
Definition nulls_first_leb (a b : option A) : bool :=
  match a, b with
  | None, _ => true
  | Some _, None => false
  | Some x, Some y => leb x y
  end.

(** The order of the rows: by key, and by row number among equal keys. *)
Definition key_le (p q : option A * nat) : Prop :=
  nulls_first_leb p.1 q.1
  && (negb (nulls_first_leb q.1 p.1) || Nat.leb p.2 q.2).

Global Instance key_le_dec p q : Decision (key_le p q).
Proof. unfold key_le. apply _. Defined.

(** [arg_sort]: the row numbers in ascending order of their keys.  Polars
    does not promise an order for rows with equal keys; on tables of the
    size of a dashboard it keeps them in table order, and so does this
    sort, which breaks ties by row number. *)
Definition arg_sort (keys : list (option A)) : list nat :=
  (merge_sort key_le (zip keys (seq 0 (length keys)))).*2.
End ArgSort.

Definition series_arg_sort (s : Series) : list nat :=
  match s with
  | Int64 vs => arg_sort Z.leb vs
  | Float64 vs => arg_sort float_leb vs
  | Date vs => arg_sort date_leb vs
  | Utf8 vs => arg_sort String.leb vs
  end.

(** *** True division by an integer *)

Definition float_div (x : float64) (k : Z) : float64 :=
  match x with
  | Finite q =>
      if k =? 0 then
        if Qeq_bool q 0 then NaN else Infinity (negb (Qle_bool 0 q))
      else Finite (Qred (q / inject_Z k))
  | Infinity s => Infinity (xorb s (k <? 0))
  | NaN => NaN
  end.

(** A function applied to every cell that is not null. *)
Definition map_cells {A B} (f : A -> B) (l : list (option A)) : list (option B) :=
  option_map f <$> l.

(** [series / k]: integers are cast to floats first; dates and strings do
    not divide. *)
Definition series_div (s : Series) (k : Z) : option Series :=
  match s with
  | Int64 vs =>
      Some (Float64 (map_cells (fun z => float_div (Finite (inject_Z z)) k) vs))
  | Float64 vs => Some (Float64 (map_cells (fun x => float_div x k) vs))
  | Date _ => None
  | Utf8 _ => None
  end.

(** ** Frames *)

Inductive exception :=
  | ColumnNotFoundError (column : string)       (* polars.exceptions *)
  | InvalidOperationError (column : string)     (* polars.exceptions *)
  | ValueError (argument column : string)       (* plotly.express *)
  | AttributeError (attribute : string).        (* no such method on a value *)

Inductive result (A : Type) :=
  | Ok (a : A)
  | Raise (e : exception).
Arguments Ok {A} a.
Arguments Raise {A} e.

Fixpoint get_column (df : DataFrame) (name : string) : option Series :=
  match df with
  | [] => None
  | (c, s) :: rest => if decide (c = name) then Some s else get_column rest name
  end.

(** [df.height] *)
Definition height (df : DataFrame) : nat :=
  match df with
  | [] => 0%nat
  | (_, s) :: _ => series_len s
  end.

(** Every column has the height of the frame, as Polars guarantees. *)
Definition frame_ok (df : DataFrame) : bool :=
  forallb (fun p => Nat.eqb (series_len p.2) (height df)) df.

Definition frame_map (f : Series -> Series) (df : DataFrame) : DataFrame :=
  prod_map id f <$> df.

Definition replace_column (name : string) (s : Series) (df : DataFrame)
    : DataFrame :=
  (fun p => if decide (p.1 = name) then (p.1, s) else p) <$> df.

(** [df.sort(by)] *)
Definition frame_sort (by_ : string) (df : DataFrame) : result DataFrame :=
  match get_column df by_ with
  | None => Raise (ColumnNotFoundError by_)
  | Some key => Ok (frame_map (series_gather (series_arg_sort key)) df)
  end.

(** [df.tail(n)] *)
Definition frame_tail (n : Z) (df : DataFrame) : DataFrame :=
  frame_map (series_tail n) df.

(** [df.with_columns(pl.col(name) / k)]: the quotient keeps the name of
    the column, so it takes its place. *)
Definition frame_with_columns_div (name : string) (k : Z) (df : DataFrame)
    : result DataFrame :=
  match get_column df name with
  | None => Raise (ColumnNotFoundError name)
  | Some s =>
      match series_div s k with
      | None => Raise (InvalidOperationError name)
      | Some q => Ok (replace_column name q df)
      end
  end.

(** [df[name]] *)
Definition frame_getitem (name : string) (df : DataFrame) : result Series :=
  match get_column df name with
  | None => Raise (ColumnNotFoundError name)
  | Some s => Ok s
  end.

(** ** The object store *)

(** Python passes frames by reference.  The store holds every frame that
    exists; a reference is its position.  Only references handed out by
    [alloc] or held by the caller occur, so the empty frame returned for a
    position past the end is never seen. *)
Abbreviation store := (list DataFrame).
Abbreviation ref := nat.

Definition M (A : Type) : Type := store -> result A * store.

Global Instance M_ret : MRet M := fun A a h => (Ok a, h).

Global Instance M_bind : MBind M := fun A B k m h =>
  match m h with
  | (Ok a, h') => k a h'
  | (Raise e, h') => (Raise e, h')
  end.

(** The outcome of a pure step, raised if it failed. *)
Definition lift {A} (r : result A) : M A := fun h => (r, h).

Definition deref (r : ref) : M DataFrame :=
  fun h => (Ok (h !!! r), h).

Definition alloc (df : DataFrame) : M ref :=
  fun h => (Ok (length h), h ++ [df]).

(** The Polars methods hand back a new frame and leave their receiver
    alone. *)
Definition df_sort (r : ref) (by_ : string) : M ref :=
  df ← deref r; out ← lift (frame_sort by_ df); alloc out.

Definition df_tail (r : ref) (n : Z) : M ref :=
  df ← deref r; alloc (frame_tail n df).

Definition df_with_columns_div (r : ref) (name : string) (k : Z) : M ref :=
  df ← deref r; out ← lift (frame_with_columns_div name k df); alloc out.

Definition df_getitem (r : ref) (name : string) : M Series :=
  df ← deref r; lift (frame_getitem name df).

(** ** Figures *)

Inductive trace_kind := Scatter | Bar.

(** A trace: its data arrays and the attributes the builders set; [None]
    leaves an attribute to Plotly. *)
Record Trace := mkTrace {
  tr_kind : trace_kind;
  tr_x : Series;
  tr_y : Series;
  tr_text : option Series;
  tr_name : option string;
  tr_mode : option string;
  tr_line_shape : option string;
  tr_line_color : option string;
  tr_marker_color : option string;
  tr_textposition : option string;
  tr_texttemplate : option string
}.

Record Margin := mkMargin {
  margin_t : Z; margin_b : Z; margin_l : Z; margin_r : Z
}.

Record Legend := mkLegend {
  orientation : string;
  yanchor : string;
  legend_y : Q;
  xanchor : string;
  legend_x : Q
}.

Record Layout := mkLayout {
  lo_title : option string;
  xaxis_tickvals : option Series;
  xaxis_ticktext : option (list string);
  xaxis_tickangle : option Z;
  lo_showlegend : option bool;
  lo_margin : option Margin;
  lo_legend : option Legend
}.

Record Figure := mkFigure { data : list Trace; layout : Layout }.

Definition empty_layout : Layout :=
  mkLayout None None None None None None None.

(** [go.Figure()] *)
Definition go_Figure : Figure := mkFigure [] empty_layout.

(** [fig.add_trace(tr)] *)
Definition add_trace (tr : Trace) (fig : Figure) : Figure :=
  mkFigure (data fig ++ [tr]) (layout fig).

(** [fig.update_traces(...)] applies to every trace of the figure. *)
Definition update_traces (f : Trace -> Trace) (fig : Figure) : Figure :=
  mkFigure (f <$> data fig) (layout fig).

(** [fig.update_layout(...)] *)
Definition update_layout (f : Layout -> Layout) (fig : Figure) : Figure :=
  mkFigure (data fig) (f (layout fig)).

(** *** Plotly Express *)

(** Express looks every column argument up by name and rejects, with the
    argument and the name, one that the frame does not have. *)
Definition px_column (argument column : string) (df : DataFrame) : result Series :=
  match get_column df column with
  | None => Raise (ValueError argument column)
  | Some s => Ok s
  end.

(** [px.line(df, x=.., y=.., text=..)]: one scatter trace over the rows in
    frame order.  The arrays of the trace are kept as the Polars columns
    they are read from; the array dtypes Plotly converts them to, and the
    name and mode Express sets itself, are not modelled. *)
Definition px_line (r : ref) (x_ y_ text_ : string) : M Figure :=
  df ← deref r;
  xs ← lift (px_column "x" x_ df);
  ys ← lift (px_column "y" y_ df);
  ts ← lift (px_column "text" text_ df);
  mret (mkFigure
         [mkTrace Scatter xs ys (Some ts) None None None None None None None]
         empty_layout).

(** [px.bar(df, x=.., y=..)]: one bar trace over the rows in frame order. *)
Definition px_bar (r : ref) (x_ y_ : string) : M Figure :=
  df ← deref r;
  xs ← lift (px_column "x" x_ df);
  ys ← lift (px_column "y" y_ df);
  mret (mkFigure
         [mkTrace Bar xs ys None None None None None None None None]
         empty_layout).

(** *** Iterating a column in Python *)

(** [[d.strftime(fmt) for d in series]]: only a date has the method; the
    first cell that is a null, a number or a string raises. *)
Definition strftime_cells {A} (f : A -> result string) (attr : string)
    : list (option A) -> result (list string) :=
  fix go cells :=
    match cells with
    | [] => Ok []
    | None :: _ => Raise (AttributeError attr)
    | Some a :: rest =>
        match f a with
        | Raise e => Raise e
        | Ok s =>
            match go rest with
            | Raise e => Raise e
            | Ok ss => Ok (s :: ss)
            end
        end
    end.

Definition strftime_all (fmt : string) (s : Series) : result (list string) :=
  let no {A} (_ : A) : result string := Raise (AttributeError "strftime") in
  match s with
  | Date vs => strftime_cells (fun d => Ok (strftime fmt d)) "strftime" vs
  | Int64 vs => strftime_cells no "strftime" vs
  | Float64 vs => strftime_cells no "strftime" vs
  | Utf8 vs => strftime_cells no "strftime" vs
  end.

(** ** Configuration and constants *)

Module CHART_COLORS.
Definition orange := "#FF6200".
Definition blue := "#0131FF".
Definition gray := "#C7D2FF".
Definition success := "#00AA44".
Definition warning := "#FFB800".
Definition danger := "#FF4B4B".
End CHART_COLORS.

Module FORMAT_TEMPLATES.
Definition number := "{text:,.0f}".
Definition percentage := "{text:.1%}".
Definition currency := "${text:,.0f}M".
Definition decimal := "{text:,.2f}".
End FORMAT_TEMPLATES.

Module CHART_DEFAULTS.
Definition n_points := 12.
Definition tick_angle := 45.
Definition date_format := "%B %y".
Definition text_position := "top center".
Definition line_shape := "linear".
Definition mode := "lines+markers+text".
End CHART_DEFAULTS.

(** The double quote character of the markup. *)
Definition dquote : string := String (ascii_of_nat 34) EmptyString.

(** [<b style="color:white;">] ... [</b>] *)
Definition bold_white (body : string) : string :=
  "<b style=" +:+ dquote +:+ "color:white;" +:+ dquote +:+ ">"
  +:+ body +:+ "</b>".

(** ** Core plotting functions *)

Definition plot_line_chart (df : ref) (date_col y_values : string)
    (y_format title color : string) (n_points tick_angle : Z)
    (date_format : string) : M Figure :=
  sorted ← df_sort df date_col;
  plot_data ← df_tail sorted n_points;
  fig ← px_line plot_data date_col y_values y_values;
  let fig := update_traces (fun tr =>
    mkTrace (tr_kind tr) (tr_x tr) (tr_y tr) (tr_text tr) (tr_name tr)
      (tr_mode tr) (tr_line_shape tr)
      (Some color) (tr_marker_color tr)
      (Some CHART_DEFAULTS.text_position)
      (Some (bold_white ("%" +:+ y_format)))) fig in
  tickvals ← df_getitem plot_data date_col;
  dates ← df_getitem plot_data date_col;
  ticktext ← lift (strftime_all date_format dates);
  mret (update_layout (fun lo =>
    mkLayout (Some title) (Some tickvals) (Some ticktext) (Some tick_angle)
      (Some false) (Some (mkMargin 50 50 50 50)) (lo_legend lo)) fig).

Definition plot_dual_line_chart (df : ref) (date_col y1_col y2_col : string)
    (title y1_name y2_name y1_color y2_color y1_format y2_format : string)
    (date_format : string) (tick_angle n_points : Z) : M Figure :=
  let fig := go_Figure in
  sorted ← df_sort df date_col;
  plot_data ← df_tail sorted n_points;
  x1 ← df_getitem plot_data date_col;
  y1 ← df_getitem plot_data y1_col;
  text1 ← df_getitem plot_data y1_col;
  let fig := add_trace
    (mkTrace Scatter x1 y1 (Some text1) (Some y1_name)
       (Some CHART_DEFAULTS.mode) (Some CHART_DEFAULTS.line_shape)
       (Some y1_color) None
       (Some CHART_DEFAULTS.text_position) (Some ("%" +:+ y1_format))) fig in
  x2 ← df_getitem plot_data date_col;
  y2 ← df_getitem plot_data y2_col;
  text2 ← df_getitem plot_data y2_col;
  let fig := add_trace
    (mkTrace Scatter x2 y2 (Some text2) (Some y2_name)
       (Some CHART_DEFAULTS.mode) (Some CHART_DEFAULTS.line_shape)
       (Some y2_color) None
       (Some CHART_DEFAULTS.text_position) (Some ("%" +:+ y2_format))) fig in
  tickvals ← df_getitem plot_data date_col;
  dates ← df_getitem plot_data date_col;
  ticktext ← lift (strftime_all date_format dates);
  mret (update_layout (fun lo =>
    mkLayout (Some title) (Some tickvals) (Some ticktext) (Some tick_angle)
      (lo_showlegend lo) (Some (mkMargin 50 50 50 50))
      (Some (mkLegend "h" "bottom" (102 # 100) "right" 1))) fig).

Definition plot_bar_chart (df : ref) (x_axis y_values : string)
    (title color value_column : string) (scale_factor n_points : Z)
    : M Figure :=
  scaled ← df_with_columns_div df value_column scale_factor;
  plot_data ← df_tail scaled n_points;
  fig ← px_bar plot_data x_axis y_values;
  let fig := update_traces (fun tr =>
    mkTrace (tr_kind tr) (tr_x tr) (tr_y tr) (tr_text tr) (tr_name tr)
      (tr_mode tr) (tr_line_shape tr)
      (tr_line_color tr) (Some color)
      (Some "outside")
      (Some (bold_white FORMAT_TEMPLATES.currency))) fig in
  tickvals ← df_getitem plot_data x_axis;
  dates ← df_getitem plot_data x_axis;
  ticktext ← lift (strftime_all "%B %Y" dates);
  mret (update_layout (fun lo =>
    mkLayout (Some title) (Some tickvals) (Some ticktext)
      (Some CHART_DEFAULTS.tick_angle)
      (Some false) (Some (mkMargin 50 50 50 50)) (lo_legend lo)) fig).

(** The calls that leave every keyword argument to its default. *)
Definition plot_line_chart_defaults (df : ref) (date_col y_values : string)
    : M Figure :=
  plot_line_chart df date_col y_values
    FORMAT_TEMPLATES.number "Line Chart" CHART_COLORS.orange
    CHART_DEFAULTS.n_points CHART_DEFAULTS.tick_angle
    CHART_DEFAULTS.date_format.

Definition plot_dual_line_chart_defaults (df : ref)
    (date_col y1_col y2_col title y1_name y2_name : string) : M Figure :=
  plot_dual_line_chart df date_col y1_col y2_col title y1_name y2_name
    CHART_COLORS.blue CHART_COLORS.gray
    FORMAT_TEMPLATES.number FORMAT_TEMPLATES.percentage
    CHART_DEFAULTS.date_format CHART_DEFAULTS.tick_angle
    CHART_DEFAULTS.n_points.

Definition plot_bar_chart_defaults (df : ref) (x_axis y_values : string)
    : M Figure :=
  plot_bar_chart df x_axis y_values
    "Bar Chart" CHART_COLORS.orange "Monto_Efectivo" 1000000
    CHART_DEFAULTS.n_points.

(** ** Notions used by the statements *)

(** The last [n] cells of column [s] once the rows are in ascending order
    of the key column. *)
Definition window (n : Z) (key s : Series) : Series :=
  series_tail n (series_gather (series_arg_sort key) s).

Definition cells_sorted {A} (leb : A -> A -> bool) (vs : list (option A)) : Prop :=
  Sorted (fun a b => nulls_first_leb leb a b) vs.

(** A column in ascending order of its own dtype, nulls first. *)
Definition series_sorted (s : Series) : Prop :=
  match s with
  | Int64 vs => cells_sorted Z.leb vs
  | Float64 vs => cells_sorted float_leb vs
  | Date vs => cells_sorted date_leb vs
  | Utf8 vs => cells_sorted String.leb vs
  end.

(** The number of rows [tail(n)] keeps out of [len]. *)
Definition tail_len (n : Z) (len : nat) : nat :=
  if n <? 0 then (len - Z.to_nat (- n))%nat else Nat.min (Z.to_nat n) len.

(** A column of dates without nulls. *)
Definition date_column (s : Series) : bool :=
  match s with
  | Date vs => forallb (fun c => bool_decide (is_Some c)) vs
  | _ => false
  end.

(** The dates of a column, nulls and other dtypes left out. *)
Definition series_dates (s : Series) : list date :=
  match s with
  | Date vs => omap id vs
  | _ => []
  end.

(** A column of numbers. *)
Definition numeric_column (s : Series) : bool :=
  match s with
  | Int64 _ | Float64 _ => true
  | _ => false
  end.

(** [DataFrame.tail] takes its count as an unsigned 64-bit number: an
    [n_points] of [2^64] or more is refused with [OverflowError], which
    the model of [tail] above does not reproduce.  The statements about the
    size of [n_points] are made below this limit. *)
Definition tail_limit : Z := 2 ^ 64.



(** What [tail(n)] keeps of a column when [n] is zero or negative, said
    with [drop]: nothing, or all but the first [abs(n)] cells. *)
Definition all_but_first (n : Z) (s : Series) : Series :=
  if n =? 0 then series_lift (fun _ _ => []) s
  else series_lift (fun _ => drop (Z.to_nat (- n))) s.

(** A store that only gained frames. *)
Definition grown (h h' : store) : Prop := exists ext, h' = h ++ ext.

(** ** Sample tables *)

Definition day_of (y : Z) (m : month) (dd : Z) : option date :=
  Some (mkdate y m dd).

(** Three months, not in date order. *)
Definition demo_dates : Series :=
  Date [day_of 2022 March 1; day_of 2022 January 1; day_of 2022 February 1].
Definition demo_value1 : Series := Int64 [Some 150; Some 100; Some 200].
Definition demo_value2 : Series :=
  Float64 [Some (Finite (1 # 4)); Some (Finite (1 # 2)); None].
Definition demo_monto : Series :=
  Int64 [Some 2500000; Some 1000000; Some 4000000].

Definition demo : DataFrame :=
  [ ("date", demo_dates); ("Value1", demo_value1); ("Value2", demo_value2);
    ("Monto_Efectivo", demo_monto) ].

(** The three rows of the windowing scenario, in date order. *)
Definition scenario : DataFrame :=
  [ ("date", Date [day_of 2022 January 1; day_of 2022 February 1;
                   day_of 2022 March 1]);
    ("value", Int64 [Some 100; Some 200; Some 150]) ].

(** Twelve rows, numbered. *)
Definition twelve_rows : DataFrame :=
  [ ("row", Int64 (Some <$> [1; 2; 3; 4; 5; 6; 7; 8; 9; 10; 11; 12]));
    ("name", Utf8 (Some <$> ["a"; "b"; "c"; "d"; "e"; "f"; "g"; "h"; "i";
                             "j"; "k"; "l"])) ].

(** Two rows on the same day. *)
Definition same_day : DataFrame :=
  [ ("date", Date [day_of 2022 January 1; day_of 2022 January 1]);
    ("Value1", Int64 [Some 100; Some 200]) ].

(** ** The rest of the page module *)

(** A column whose dtype is [Date]. *)
Definition date_dtype (s : Series) : bool :=
  match s with
  | Date _ => true
  | _ => false
  end.

(** A date column whose first cell is missing. *)
Definition with_gap : DataFrame :=
  [ ("date", Date [None; day_of 2022 January 1; day_of 2022 February 1]);
    ("Value1", Int64 [Some 100; Some 200; Some 150]) ].

(** Dates in strictly ascending order. *)
Definition ascending (ds : list date) : Prop :=
  StronglySorted (fun a c => date_leb a c = true /\ a <> c) ds.

(** *** Demo data *)

Definition month_of_number (k : Z) : month :=
  match k with
  | 1 => January | 2 => February | 3 => March | 4 => April
  | 5 => May | 6 => June | 7 => July | 8 => August
  | 9 => September | 10 => October | 11 => November | _ => December
  end.

(** The date [k] months later, on the same day of the month. *)
Definition add_months (dt : date) (k : Z) : date :=
  let months := year dt * 12 + (month_number (month_of dt) - 1) + k in
  mkdate (months `div` 12) (month_of_number (months `mod` 12 + 1)) (day dt).

(** [pl.date_range(start, end, interval="1mo", eager=True)]: the start and
    the dates every month after it, up to the end.  The day of the month
    is kept as it is, which is what Polars does for a day that every month
    has (the demo data starts on the first). *)
Definition date_range_1mo (start end_ : date) : list date :=
  let span := (year end_ - year start) * 12
              + (month_number (month_of end_) - month_number (month_of start)) in
  filter (fun dt => date_leb dt end_ = true)
    ((fun k => add_months start (Z.of_nat k)) <$> seq 0 (Z.to_nat (span + 1))).

(** [df.with_columns(...)] with named columns: a column of a name the frame
    has takes its place, a new one is appended. *)
Definition with_column (df : DataFrame) (col : string * Series) : DataFrame :=
  match get_column df col.1 with
  | Some _ => replace_column col.1 col.2 df
  | None => df ++ [col]
  end.

Definition frame_with_columns (cols : list (string * Series)) (df : DataFrame)
    : DataFrame :=
  foldl with_column df cols.

(** [df.head(n)]: the first [n] rows; for a negative [n], all but the last
    [abs(n)]. *)
Definition list_head {A} (n : Z) (l : list A) : list A :=
  if n <? 0 then take (length l - Z.to_nat (- n))%nat l
  else take (Z.to_nat n) l.

Definition frame_head (n : Z) (df : DataFrame) : DataFrame :=
  frame_map (series_lift (fun _ => list_head n)) df.

(** [df.width] *)
Definition width (df : DataFrame) : nat := length df.

(** [pl.DataFrame({...})] *)
Definition pl_DataFrame (cols : DataFrame) : M ref := alloc cols.

Definition df_with_columns (r : ref) (cols : list (string * Series)) : M ref :=
  df ← deref r; alloc (frame_with_columns cols df).

Definition df_head (r : ref) (n : Z) : M ref :=
  df ← deref r; alloc (frame_head n df).

Definition df_height (r : ref) : M nat :=
  df ← deref r; mret (height df).

(** [create_demo_data()].  What [np.random.randint] draws after the seed
    is set is not modelled: the three arrays, each of [date_df.height]
    integers, are arguments. *)
Definition create_demo_data (value1 value2 monto : list Z) : M ref :=
  date_df ← pl_DataFrame
    [("date", Date (Some <$> date_range_1mo (mkdate 2022 January 1)
                                           (mkdate 2024 January 1)))];
  df_with_columns date_df
    [("Value1", Int64 (Some <$> value1));
     ("Value2", Int64 (Some <$> value2));
     ("Monto_Efectivo", Int64 (Some <$> monto))].

(** *** Streamlit *)

(** Where a widget is drawn: the page itself, a column or the inside of an
    expander. *)
Inductive container :=
  | Main
  | ColumnOf (outer : container) (i : nat)
  | ExpanderOf (outer : container) (label : string).

Inductive widget :=
  | Title (body : string)
  | Markdown (body : string)
  | Subheader (body : string)
  | Caption (body : string)
  | Divider
  | Columns (count : nat)
  | Expander (label : string) (expanded : bool)
  | DataframeView (shown : DataFrame) (use_container_width : bool)
  | Code (body language : string)
  | PlotlyChart (fig : Figure) (use_container_width : bool) (key : string).

(** The running app: the frames, the container that [st.] calls draw in,
    and what was drawn so far, in call order. *)
Record app := mkApp {
  app_frames : store;
  app_current : container;
  app_page : list (container * widget)
}.

Definition UI (A : Type) : Type := app -> result A * app.

Global Instance UI_ret : MRet UI := fun A a s => (Ok a, s).

Global Instance UI_bind : MBind UI := fun A B k m s =>
  match m s with
  | (Ok a, s') => k a s'
  | (Raise e, s') => (Raise e, s')
  end.

(** A computation on the frames, run inside the app. *)
Definition on_frames {A} (m : M A) : UI A := fun s =>
  let (res, h) := m (app_frames s) in
  (res, mkApp h (app_current s) (app_page s)).

(** A widget drawn in a given container. *)
Definition draw_in (c : container) (w : widget) : UI unit := fun s =>
  (Ok tt, mkApp (app_frames s) (app_current s) (app_page s ++ [(c, w)])).

(** [st.<widget>(...)]: drawn in the current container. *)
Definition st (w : widget) : UI unit := fun s => draw_in (app_current s) w s.

(** [with c: body]: the body draws in [c]; the container of before is
    current again afterwards, also when the body raised. *)
Definition with_ {A} (c : container) (body : UI A) : UI A := fun s =>
  let (res, s') := body (mkApp (app_frames s) c (app_page s)) in
  (res, mkApp (app_frames s') (app_current s) (app_page s')).

(** [with st.expander(label, expanded=..): body] *)
Definition st_expander {A} (label : string) (expanded : bool) (body : UI A)
    : UI A := fun s =>
  (_ ← st (Expander label expanded);
   with_ (ExpanderOf (app_current s) label) body) s.

(** [col1, col2 = st.columns(2)] *)
Definition st_columns_2 : UI (container * container) := fun s =>
  (_ ← st (Columns 2);
   mret (ColumnOf (app_current s) 0, ColumnOf (app_current s) 1)) s.

(** *** Utility functions *)

(** The functions whose source the page shows. *)
Inductive pyfunc :=
  | plot_line_chart_fn
  | plot_dual_line_chart_fn
  | plot_bar_chart_fn.

(** [func.__name__] *)
Definition dunder_name (func : pyfunc) : string :=
  match func with
  | plot_line_chart_fn => "plot_line_chart"
  | plot_dual_line_chart_fn => "plot_dual_line_chart"
  | plot_bar_chart_fn => "plot_bar_chart"
  end.

(** [a or b] on an optional string: [None] and the empty string are both
    false. *)
Definition or_else (a : option string) (b : string) : string :=
  match a with
  | None => b
  | Some EmptyString => b
  | Some s => s
  end.

Definition newline : string := String (ascii_of_nat 10) EmptyString.

(** [f"{n:,}"]: the decimal digits in groups of three. *)
Fixpoint commas (digits_rev : list ascii) (k : nat) : list ascii :=
  match digits_rev with
  | [] => []
  | c :: rest =>
      if Nat.eqb k 3 then ","%char :: c :: commas rest 1
      else c :: commas rest (S k)
  end.

Definition format_thousands (n : nat) : string :=
  string_of_list_ascii
    (rev (commas (rev (list_ascii_of_string (pretty n))) 0)).

Section Page.
(** [inspect.getsource]: the text of a function, which is the file's own. *)
Context (getsource : pyfunc -> string).

Definition show_function_code (func : pyfunc) (label : option string)
    : UI unit :=
  let display_label := or_else label ("📝 " +:+ dunder_name func) in
  st_expander display_label false
    (st (Code (getsource func) "python")).

Definition render_chart_section (chart_fig : Figure) (chart_function : pyfunc)
    (column : container) (chart_key : string) (show_code : bool) : UI unit :=
  _ ← draw_in column (PlotlyChart chart_fig true chart_key);
  if show_code then with_ column (show_function_code chart_function None)
  else mret tt.

(** *** Page content functions *)

Definition render_page_header : UI unit :=
  _ ← st (Title "📊 Plotting Components");
  st (Markdown
        (newline
         +:+ "    This page demonstrates the reusable plotting components available in the dashboard."
         +:+ newline
         +:+ "    Each chart type includes customizable parameters and displays its source code for reference."
         +:+ newline +:+ "    ")).

Definition render_data_preview (data : ref) : UI unit :=
  st_expander "📋 View Sample Data" false
    (first_rows ← on_frames (df_head data 10);
     shown ← on_frames (deref first_rows);
     _ ← st (DataframeView shown true);
     df ← on_frames (deref data);
     st (Caption ("Dataset contains " +:+ format_thousands (height df)
                  +:+ " rows and " +:+ pretty (width df) +:+ " columns"))).

Definition render_chart_gallery (data : ref) : UI unit :=
  _ ← st (Subheader "📈 Chart Gallery");
  cols ← st_columns_2;
  line_chart ← on_frames
    (plot_line_chart data "date" "Value1"
       FORMAT_TEMPLATES.number "Monthly Trend - Value 1" CHART_COLORS.orange
       CHART_DEFAULTS.n_points CHART_DEFAULTS.tick_angle
       CHART_DEFAULTS.date_format);
  dual_chart ← on_frames
    (plot_dual_line_chart data "date" "Value1" "Value2"
       "Comparative Analysis" "Primary Metric" "Secondary Metric"
       CHART_COLORS.blue CHART_COLORS.gray
       FORMAT_TEMPLATES.number FORMAT_TEMPLATES.number
       CHART_DEFAULTS.date_format CHART_DEFAULTS.tick_angle
       CHART_DEFAULTS.n_points);
  _ ← render_chart_section line_chart plot_line_chart_fn cols.1
        "demo_line_chart" true;
  render_chart_section dual_chart plot_dual_line_chart_fn cols.2
    "demo_dual_chart" true.

(** *** Main page function *)

Definition show_plotting_page (value1 value2 monto : list Z) : UI unit :=
  _ ← render_page_header;
  demo_data ← on_frames (create_demo_data value1 value2 monto);
  _ ← render_data_preview demo_data;
  _ ← st Divider;
  _ ← render_chart_gallery demo_data;
  _ ← st (Markdown "---");
  st (Caption "💡 **Tip**: All charts are responsive and will adapt to container width. Source code is available for each chart type.").
End Page.

(** The charts of a page: where each is drawn, under which key. *)
Definition chart_keys (page : list (container * widget))
    : list (container * string) :=
  omap (fun cw => match cw.2 with
                  | PlotlyChart _ _ key => Some (cw.1, key)
                  | _ => None
                  end) page.

(** The figures of a page, in the order they were drawn. *)
Definition page_figures (page : list (container * widget)) : list Figure :=
  omap (fun cw => match cw.2 with
                  | PlotlyChart fig _ _ => Some fig
                  | _ => None
                  end) page.

(** An app that has drawn nothing yet. *)
Definition fresh_app (h : store) : app := mkApp h Main [].

(** ** Running the store computations *)

Section Run.
Context (h : store).

Lemma bind_run {A B} (m : M A) (k : A -> M B) :
  (m ≫= k) h =
    match m h with
    | (Ok a, h') => k a h'
    | (Raise e, h') => (Raise e, h')
    end.
Proof. reflexivity. Qed.

Lemma df_sort_run rf by_ :
  df_sort rf by_ h =
    match frame_sort by_ (h !!! rf) with
    | Ok out => (Ok (length h), h ++ [out])
    | Raise e => (Raise e, h)
    end.
Proof.
  unfold df_sort. rewrite bind_run. cbn.
  rewrite bind_run. unfold lift. by destruct frame_sort.
Qed.

Lemma df_tail_run rf n :
  df_tail rf n h = (Ok (length h), h ++ [frame_tail n (h !!! rf)]).
Proof. reflexivity. Qed.

Lemma df_with_columns_div_run rf name k :
  df_with_columns_div rf name k h =
    match frame_with_columns_div name k (h !!! rf) with
    | Ok out => (Ok (length h), h ++ [out])
    | Raise e => (Raise e, h)
    end.
Proof.
  unfold df_with_columns_div. rewrite bind_run. cbn.
  rewrite bind_run. unfold lift. by destruct frame_with_columns_div.
Qed.

Lemma df_getitem_run rf name :
  df_getitem rf name h = (frame_getitem name (h !!! rf), h).
Proof. reflexivity. Qed.
End Run.

(** A frame just allocated is found at the reference [alloc] returned. *)
Lemma store_fresh (h : store) (df : DataFrame) : (h ++ [df]) !!! length h = df.
Proof. by apply list_lookup_total_middle. Qed.

Lemma store_fresh2 (h : store) (a c : DataFrame) :
  ((h ++ [a]) ++ [c]) !!! length (h ++ [a]) = c.
Proof. apply store_fresh. Qed.

(** *** Columns of derived frames *)

Lemma get_column_frame_map f (df : DataFrame) c :
  get_column (frame_map f df) c = f <$> get_column df c.
Proof.
  induction df as [|[c' s] df IH]; [done|].
  cbn. by destruct (decide (c' = c)).
Qed.

Lemma get_column_replace_eq c s (df : DataFrame) old :
  get_column df c = Some old -> get_column (replace_column c s df) c = Some s.
Proof.
  induction df as [|[c' s'] df IH]; [done|].
  cbn. destruct (decide (c' = c)) as [->|Hne]; cbn.
  - by rewrite decide_True.
  - rewrite decide_False by done. apply IH.
Qed.

Lemma get_column_replace_ne c s (df : DataFrame) c' :
  c' <> c -> get_column (replace_column c s df) c' = get_column df c'.
Proof.
  intros Hne. induction df as [|[c0 s0] df IH]; [done|].
  cbn. destruct (decide (c0 = c)) as [->|Hne0]; cbn.
  - rewrite !decide_False by done. apply IH.
  - destruct (decide (c0 = c')); [done|apply IH].
Qed.



Lemma get_column_window n key (df : DataFrame) c :
  get_column (frame_tail n (frame_map (series_gather (series_arg_sort key)) df)) c
  = window n key <$> get_column df c.
Proof.
  unfold frame_tail. rewrite !get_column_frame_map.
  by destruct (get_column df c).
Qed.

Lemma plot_line_chart_run h rf dc yv yf ti co n ta fmt :
  plot_line_chart rf dc yv yf ti co n ta fmt h =
    let df := h !!! rf in
    match get_column df dc with
    | None => (Raise (ColumnNotFoundError dc), h)
    | Some key =>
        let sorted := frame_map (series_gather (series_arg_sort key)) df in
        let h' := (h ++ [sorted]) ++ [frame_tail n sorted] in
        match get_column df yv with
        | None => (Raise (ValueError "y" yv), h')
        | Some ys =>
            match strftime_all fmt (window n key key) with
            | Raise e => (Raise e, h')
            | Ok labels =>
                (Ok (mkFigure
                       [mkTrace Scatter (window n key key) (window n key ys)
                          (Some (window n key ys)) None None None
                          (Some co) None
                          (Some CHART_DEFAULTS.text_position)
                          (Some (bold_white ("%" +:+ yf)))]
                       (mkLayout (Some ti) (Some (window n key key))
                          (Some labels) (Some ta) (Some false)
                          (Some (mkMargin 50 50 50 50)) None)), h')
            end
        end
    end.
Proof.
  unfold plot_line_chart. rewrite bind_run, df_sort_run. unfold frame_sort.
  destruct (get_column (h !!! rf) dc) as [key|] eqn:Hkey; [|done].
  cbv zeta. rewrite bind_run, df_tail_run, store_fresh.
  rewrite bind_run. unfold px_line. rewrite bind_run.
  unfold deref at 1. rewrite store_fresh2.
  rewrite bind_run. unfold lift at 1, px_column at 1.
  rewrite get_column_window, Hkey. cbn [fmap option_fmap option_map].
  rewrite bind_run. unfold lift at 1, px_column at 1.
  rewrite get_column_window.
  destruct (get_column (h !!! rf) yv) as [ys|] eqn:Hys; [|done].
  cbn [fmap option_fmap option_map].
  rewrite bind_run. unfold lift at 1, px_column at 1.
  rewrite get_column_window, Hys. cbn [fmap option_fmap option_map].
  unfold mret at 1, M_ret at 1.
  rewrite bind_run, df_getitem_run, store_fresh2. unfold frame_getitem.
  rewrite get_column_window, Hkey. cbn [fmap option_fmap option_map].
  rewrite bind_run, df_getitem_run, store_fresh2. unfold frame_getitem.
  rewrite get_column_window, Hkey. cbn [fmap option_fmap option_map].
  rewrite bind_run. unfold lift.
  by destruct strftime_all.
Qed.

Ltac run_getitem :=
  rewrite bind_run, df_getitem_run, store_fresh2; unfold frame_getitem;
  rewrite ?get_column_window.

Lemma plot_dual_line_chart_run h rf dc y1c y2c ti n1 n2 c1 c2 f1 f2 fmt ta n :
  plot_dual_line_chart rf dc y1c y2c ti n1 n2 c1 c2 f1 f2 fmt ta n h =
    let df := h !!! rf in
    match get_column df dc with
    | None => (Raise (ColumnNotFoundError dc), h)
    | Some key =>
        let sorted := frame_map (series_gather (series_arg_sort key)) df in
        let h' := (h ++ [sorted]) ++ [frame_tail n sorted] in
        match get_column df y1c with
        | None => (Raise (ColumnNotFoundError y1c), h')
        | Some y1 =>
            match get_column df y2c with
            | None => (Raise (ColumnNotFoundError y2c), h')
            | Some y2 =>
                match strftime_all fmt (window n key key) with
                | Raise e => (Raise e, h')
                | Ok labels =>
                    (Ok (mkFigure
                           [mkTrace Scatter (window n key key) (window n key y1)
                              (Some (window n key y1)) (Some n1)
                              (Some CHART_DEFAULTS.mode)
                              (Some CHART_DEFAULTS.line_shape)
                              (Some c1) None
                              (Some CHART_DEFAULTS.text_position)
                              (Some ("%" +:+ f1));
                            mkTrace Scatter (window n key key) (window n key y2)
                              (Some (window n key y2)) (Some n2)
                              (Some CHART_DEFAULTS.mode)
                              (Some CHART_DEFAULTS.line_shape)
                              (Some c2) None
                              (Some CHART_DEFAULTS.text_position)
                              (Some ("%" +:+ f2))]
                           (mkLayout (Some ti) (Some (window n key key))
                              (Some labels) (Some ta) None
                              (Some (mkMargin 50 50 50 50))
                              (Some (mkLegend "h" "bottom" (102 # 100)
                                       "right" 1)))), h')
                end
            end
        end
    end.
Proof.
  unfold plot_dual_line_chart. cbv zeta.
  rewrite bind_run, df_sort_run. unfold frame_sort.
  destruct (get_column (h !!! rf) dc) as [key|] eqn:Hkey; [|done].
  rewrite bind_run, df_tail_run, store_fresh.
  run_getitem. rewrite Hkey. cbn [fmap option_fmap option_map].
  run_getitem.
  destruct (get_column (h !!! rf) y1c) as [y1|] eqn:Hy1; [|done].
  cbn [fmap option_fmap option_map].
  run_getitem. rewrite Hy1. cbn [fmap option_fmap option_map].
  run_getitem. rewrite Hkey. cbn [fmap option_fmap option_map].
  run_getitem.
  destruct (get_column (h !!! rf) y2c) as [y2|] eqn:Hy2; [|done].
  cbn [fmap option_fmap option_map].
  run_getitem. rewrite Hy2. cbn [fmap option_fmap option_map].
  run_getitem. rewrite Hkey. cbn [fmap option_fmap option_map].
  run_getitem. rewrite Hkey. cbn [fmap option_fmap option_map].
  rewrite bind_run. unfold lift.
  by destruct strftime_all.
Qed.

Lemma plot_bar_chart_run h rf xa yv ti co vc k n :
  plot_bar_chart rf xa yv ti co vc k n h =
    let df := h !!! rf in
    match get_column df vc with
    | None => (Raise (ColumnNotFoundError vc), h)
    | Some vs =>
        match series_div vs k with
        | None => (Raise (InvalidOperationError vc), h)
        | Some q =>
            let scaled := replace_column vc q df in
            let h' := (h ++ [scaled]) ++ [frame_tail n scaled] in
            match get_column (frame_tail n scaled) xa with
            | None => (Raise (ValueError "x" xa), h')
            | Some xs =>
                match get_column (frame_tail n scaled) yv with
                | None => (Raise (ValueError "y" yv), h')
                | Some ys =>
                    match strftime_all "%B %Y" xs with
                    | Raise e => (Raise e, h')
                    | Ok labels =>
                        (Ok (mkFigure
                               [mkTrace Bar xs ys None None None None
                                  None (Some co) (Some "outside")
                                  (Some (bold_white FORMAT_TEMPLATES.currency))]
                               (mkLayout (Some ti) (Some xs) (Some labels)
                                  (Some CHART_DEFAULTS.tick_angle) (Some false)
                                  (Some (mkMargin 50 50 50 50)) None)), h')
                    end
                end
            end
        end
    end.
Proof.
  unfold plot_bar_chart. rewrite bind_run, df_with_columns_div_run.
  unfold frame_with_columns_div.
  destruct (get_column (h !!! rf) vc) as [vs|] eqn:Hvs; [|done].
  destruct (series_div vs k) as [q|] eqn:Hq; [|done].
  cbv zeta. rewrite bind_run, df_tail_run, store_fresh.
  rewrite bind_run. unfold px_bar. rewrite bind_run.
  unfold deref at 1. rewrite store_fresh2.
  rewrite bind_run. unfold lift at 1, px_column at 1.
  destruct (get_column _ xa) as [xs|] eqn:Hxs; [|done].
  rewrite bind_run. unfold lift at 1, px_column at 1.
  destruct (get_column _ yv) as [ys|] eqn:Hys; [|done].
  unfold mret at 1, M_ret at 1.
  run_getitem. rewrite Hxs.
  run_getitem. rewrite Hxs.
  rewrite bind_run. unfold lift.
  by destruct strftime_all.
Qed.

(** ** Sorting *)

Lemma Sorted_fmap_mono {A B} (R : relation A) (R' : relation B) (f : A -> B) xs :
  (forall a c, R a c -> R' (f a) (f c)) ->
  Sorted R xs -> Sorted R' (f <$> xs).
Proof.
  intros Hmono. induction 1 as [|a xs Hs IH Hhd]; cbn; constructor; [done|].
  destruct Hhd; cbn; constructor. by apply Hmono.
Qed.

Lemma Sorted_drop {A} (R : relation A) n xs :
  Sorted R xs -> Sorted R (drop n xs).
Proof.
  revert xs. induction n as [|n IH]; intros xs Hs; [done|].
  destruct xs as [|a xs]; [done|]. cbn. apply IH. by inversion Hs.
Qed.

Lemma Sorted_list_tail {A} (R : relation A) n xs :
  Sorted R xs -> Sorted R (list_tail n xs).
Proof. unfold list_tail. destruct (n <? 0); apply Sorted_drop. Qed.

Section ArgSortFacts.
Context {A : Type} (leb : A -> A -> bool).

Lemma arg_sort_pairs (keys : list (option A)) :
  Forall (fun p : option A * nat => keys !! p.2 = Some p.1)
    (merge_sort (key_le leb) (zip keys (seq 0 (length keys)))).
Proof.
  rewrite merge_sort_Permutation. apply Forall_forall.
  intros [k i] Hin. apply list_elem_of_lookup in Hin as [j Hj].
  apply lookup_zip_Some in Hj as [Hk Hi].
  apply lookup_seq in Hi as [-> _]. done.
Qed.

(** Reading the keys in the order [arg_sort] gives is reading the first
    components of the sorted pairs. *)
Lemma gather_arg_sort (keys : list (option A)) :
  gather (arg_sort leb keys) keys
  = (merge_sort (key_le leb) (zip keys (seq 0 (length keys)))).*1.
Proof.
  unfold gather, arg_sort. rewrite <- list_fmap_compose.
  apply Forall_fmap_ext_1. eapply Forall_impl; [apply arg_sort_pairs|].
  intros [k i] Hk. cbn in *. by rewrite Hk.
Qed.

Lemma length_arg_sort (keys : list (option A)) :
  length (arg_sort leb keys) = length keys.
Proof.
  unfold arg_sort. rewrite length_fmap, merge_sort_Permutation.
  rewrite length_zip_with, length_seq. lia.
Qed.

(** The gathered keys are the keys, rearranged. *)
Lemma gather_arg_sort_Permutation (keys : list (option A)) :
  gather (arg_sort leb keys) keys ≡ₚ keys.
Proof.
  rewrite gather_arg_sort, merge_sort_Permutation.
  rewrite fst_zip; [done|]. rewrite length_seq. lia.
Qed.

Hypothesis leb_total : forall a c, leb a c = true \/ leb c a = true.

Lemma key_le_total : Total (key_le leb).
Proof.
  intros [[a|] i] [[c|] j]; unfold key_le; cbn.
  - destruct (leb_total a c) as [Hac|Hca];
      destruct (leb a c), (leb c a); cbn; try done; auto.
    all: destruct (Nat.leb_spec i j); [by left|right];
      apply Is_true_true, Nat.leb_le; lia.
  - by right.
  - by left.
  - destruct (Nat.leb_spec i j); [by left|right].
    apply Is_true_true, Nat.leb_le. lia.
Qed.

Lemma key_le_keys (p q : option A * nat) :
  key_le leb p q -> nulls_first_leb leb p.1 q.1.
Proof. unfold key_le. by intros [H _]%andb_True. Qed.

Lemma gather_arg_sort_sorted (keys : list (option A)) :
  cells_sorted leb (gather (arg_sort leb keys) keys).
Proof.
  rewrite gather_arg_sort. unfold cells_sorted.
  eapply Sorted_fmap_mono; [|apply Sorted_merge_sort, key_le_total].
  apply key_le_keys.
Qed.
End ArgSortFacts.

Lemma Z_leb_total (a c : Z) : (a <=? c) = true \/ (c <=? a) = true.
Proof. destruct (Z.leb_spec a c); [by left|right]. apply Z.leb_le. lia. Qed.

Lemma date_leb_total (a c : date) : date_leb a c = true \/ date_leb c a = true.
Proof.
  unfold date_leb.
  destruct (Z.ltb_spec (year a) (year c)); [by left|].
  destruct (Z.ltb_spec (year c) (year a)); [by right|].
  destruct (Z.ltb_spec (month_number (month_of a)) (month_number (month_of c)));
    [by left|].
  destruct (Z.ltb_spec (month_number (month_of c)) (month_number (month_of a)));
    [by right|].
  apply Z_leb_total.
Qed.

Lemma float_leb_total (a c : float64) :
  float_leb a c = true \/ float_leb c a = true.
Proof.
  destruct a as [p|[]|], c as [q|[]|]; cbn; auto.
  destruct (Qlt_le_dec p q) as [Hlt|Hle].
  - left. apply Qle_bool_iff. by apply Qlt_le_weak.
  - right. by apply Qle_bool_iff.
Qed.

(** After [sort] and [tail] the key column is in ascending order. *)
Lemma window_key_sorted n key : series_sorted (window n key key).
Proof.
  unfold window, series_tail, series_gather.
  destruct key as [vs|vs|vs|vs]; cbn; apply Sorted_list_tail.
  - apply gather_arg_sort_sorted, Z_leb_total.
  - apply gather_arg_sort_sorted, float_leb_total.
  - apply gather_arg_sort_sorted, date_leb_total.
  - apply gather_arg_sort_sorted, String.leb_total.
Qed.

(** *** Row counts *)

Lemma length_list_tail {A} n (xs : list A) :
  length (list_tail n xs) = tail_len n (length xs).
Proof.
  unfold list_tail, tail_len. destruct (n <? 0); rewrite length_drop; lia.
Qed.

Lemma series_len_tail n s : series_len (series_tail n s) = tail_len n (series_len s).
Proof. destruct s; cbn; apply length_list_tail. Qed.

Lemma series_len_gather idx s : series_len (series_gather idx s) = length idx.
Proof. destruct s; cbn; unfold gather; by rewrite length_fmap. Qed.

Lemma length_series_arg_sort key : length (series_arg_sort key) = series_len key.
Proof. destruct key; cbn; apply length_arg_sort. Qed.

Lemma series_len_window n key s :
  series_len (window n key s) = tail_len n (series_len key).
Proof.
  unfold window. by rewrite series_len_tail, series_len_gather, length_series_arg_sort.
Qed.

Lemma frame_ok_height (df : DataFrame) c s :
  frame_ok df = true -> get_column df c = Some s -> series_len s = height df.
Proof.
  unfold frame_ok. generalize (height df) as k. intros k.
  induction df as [|[c' s'] df IH]; [done|].
  cbn. intros [Hs Hrest]%andb_prop.
  destruct (decide (c' = c)); [|by apply IH].
  intros [= <-]. by apply Nat.eqb_eq.
Qed.

(** *** Windows of a date column *)

Lemma cells_all_Some {A} (vs : list (option A)) :
  Forall is_Some vs -> vs = Some <$> omap id vs.
Proof.
  induction 1 as [|c vs [a ->] _ IH]; [done|]. cbn. by rewrite <- IH.
Qed.

Lemma date_column_Forall vs :
  date_column (Date vs) = true -> Forall is_Some vs.
Proof.
  cbn. intros Hall. apply Forall_forall. intros c Hc%list_elem_of_In.
  rewrite forallb_forall in Hall. specialize (Hall c Hc).
  by apply bool_decide_eq_true in Hall.
Qed.

Lemma Forall_list_tail {A} (P : A -> Prop) n xs :
  Forall P xs -> Forall P (list_tail n xs).
Proof. unfold list_tail. destruct (n <? 0); apply Forall_drop. Qed.

(** The window of a column of dates is again a column of dates. *)
Lemma window_date_column n key :
  date_column key = true ->
  window n key key = Date (Some <$> series_dates (window n key key)).
Proof.
  destruct key as [vs|vs|vs|vs]; try done. intros Hkey.
  unfold window, series_tail, series_gather, series_lift, series_arg_sort,
    series_dates.
  f_equal. apply cells_all_Some, Forall_list_tail.
  rewrite gather_arg_sort_Permutation. by apply date_column_Forall.
Qed.

Lemma strftime_all_dates fmt (w : list date) :
  strftime_all fmt (Date (Some <$> w)) = Ok (strftime fmt <$> w).
Proof. cbn. induction w as [|a w IH]; [done|]. cbn in *. by rewrite IH. Qed.

Lemma strftime_all_window fmt n key :
  date_column key = true ->
  strftime_all fmt (window n key key)
  = Ok (strftime fmt <$> series_dates (window n key key)).
Proof.
  intros Hkey. rewrite (window_date_column n key Hkey) at 1.
  apply strftime_all_dates.
Qed.

Lemma list_tail_all {A} n (xs : list A) :
  (length xs <= Z.to_nat n)%nat -> 0 <= n -> list_tail n xs = xs.
Proof.
  intros Hlen Hn. unfold list_tail.
  destruct (Z.ltb_spec n 0); [lia|].
  by replace (length xs - Z.to_nat n)%nat with 0%nat by lia.
Qed.

Lemma series_tail_all n s :
  (series_len s <= Z.to_nat n)%nat -> 0 <= n -> series_tail n s = s.
Proof. destruct s; cbn; intros; f_equal; by apply list_tail_all. Qed.

Lemma tail_date_column n xs :
  date_column xs = true ->
  series_tail n xs = Date (Some <$> series_dates (series_tail n xs)).
Proof.
  destruct xs as [vs|vs|vs|vs]; try done. intros Hxs.
  unfold series_tail, series_lift, series_dates.
  f_equal. apply cells_all_Some, Forall_list_tail. by apply date_column_Forall.
Qed.

Lemma strftime_all_tail fmt n xs :
  date_column xs = true ->
  strftime_all fmt (series_tail n xs)
  = Ok (strftime fmt <$> series_dates (series_tail n xs)).
Proof.
  intros Hxs. rewrite (tail_date_column n xs Hxs) at 1.
  apply strftime_all_dates.
Qed.

(** *** The successful runs *)

Lemma plot_line_chart_ok h rf dc yv key ys yf ti co n ta fmt :
  get_column (h !!! rf) dc = Some key ->
  date_column key = true ->
  get_column (h !!! rf) yv = Some ys ->
  plot_line_chart rf dc yv yf ti co n ta fmt h =
    (Ok (mkFigure
           [mkTrace Scatter (window n key key) (window n key ys)
              (Some (window n key ys)) None None None
              (Some co) None
              (Some CHART_DEFAULTS.text_position)
              (Some (bold_white ("%" +:+ yf)))]
           (mkLayout (Some ti) (Some (window n key key))
              (Some (strftime fmt <$> series_dates (window n key key)))
              (Some ta) (Some false)
              (Some (mkMargin 50 50 50 50)) None)),
     (h ++ [frame_map (series_gather (series_arg_sort key)) (h !!! rf)])
       ++ [frame_tail n (frame_map (series_gather (series_arg_sort key))
                           (h !!! rf))]).
Proof.
  intros Hkey Hdates Hys. rewrite plot_line_chart_run. cbv zeta.
  by rewrite Hkey, Hys, strftime_all_window.
Qed.

Lemma plot_dual_line_chart_ok h rf dc y1c y2c key y1 y2
    ti n1 n2 c1 c2 f1 f2 fmt ta n :
  get_column (h !!! rf) dc = Some key ->
  date_column key = true ->
  get_column (h !!! rf) y1c = Some y1 ->
  get_column (h !!! rf) y2c = Some y2 ->
  plot_dual_line_chart rf dc y1c y2c ti n1 n2 c1 c2 f1 f2 fmt ta n h =
    (Ok (mkFigure
           [mkTrace Scatter (window n key key) (window n key y1)
              (Some (window n key y1)) (Some n1)
              (Some CHART_DEFAULTS.mode) (Some CHART_DEFAULTS.line_shape)
              (Some c1) None
              (Some CHART_DEFAULTS.text_position) (Some ("%" +:+ f1));
            mkTrace Scatter (window n key key) (window n key y2)
              (Some (window n key y2)) (Some n2)
              (Some CHART_DEFAULTS.mode) (Some CHART_DEFAULTS.line_shape)
              (Some c2) None
              (Some CHART_DEFAULTS.text_position) (Some ("%" +:+ f2))]
           (mkLayout (Some ti) (Some (window n key key))
              (Some (strftime fmt <$> series_dates (window n key key)))
              (Some ta) None
              (Some (mkMargin 50 50 50 50))
              (Some (mkLegend "h" "bottom" (102 # 100) "right" 1)))),
     (h ++ [frame_map (series_gather (series_arg_sort key)) (h !!! rf)])
       ++ [frame_tail n (frame_map (series_gather (series_arg_sort key))
                           (h !!! rf))]).
Proof.
  intros Hkey Hdates Hy1 Hy2. rewrite plot_dual_line_chart_run. cbv zeta.
  by rewrite Hkey, Hy1, Hy2, strftime_all_window.
Qed.

Lemma get_column_frame_tail n (df : DataFrame) c :
  get_column (frame_tail n df) c = series_tail n <$> get_column df c.
Proof. apply get_column_frame_map. Qed.

(** The column [c] of the frame whose column [vc] was replaced by [q]. *)
Lemma get_column_replace c vc q (df : DataFrame) old :
  get_column df vc = Some old ->
  get_column (replace_column vc q df) c
  = if decide (c = vc) then Some q else get_column df c.
Proof.
  intros Hold. destruct (decide (c = vc)) as [->|Hne].
  - by eapply get_column_replace_eq.
  - by apply get_column_replace_ne.
Qed.

Lemma plot_bar_chart_ok h rf xa yv xs ys vs q ti co vc k n :
  get_column (h !!! rf) vc = Some vs ->
  series_div vs k = Some q ->
  get_column (h !!! rf) xa = Some xs ->
  date_column xs = true ->
  get_column (h !!! rf) yv = Some ys ->
  plot_bar_chart rf xa yv ti co vc k n h =
    (Ok (mkFigure
           [mkTrace Bar (series_tail n xs)
              (series_tail n (if decide (yv = vc) then q else ys))
              None None None None
              None (Some co) (Some "outside")
              (Some (bold_white FORMAT_TEMPLATES.currency))]
           (mkLayout (Some ti) (Some (series_tail n xs))
              (Some (strftime "%B %Y" <$> series_dates (series_tail n xs)))
              (Some CHART_DEFAULTS.tick_angle) (Some false)
              (Some (mkMargin 50 50 50 50)) None)),
     (h ++ [replace_column vc q (h !!! rf)])
       ++ [frame_tail n (replace_column vc q (h !!! rf))]).
Proof.
  intros Hvs Hq Hxs Hdates Hys. rewrite plot_bar_chart_run. cbv zeta.
  rewrite Hvs, Hq, !get_column_frame_tail.
  rewrite !(get_column_replace _ vc q _ vs) by done.
  assert (Hne : xa <> vc).
  { intros ->. rewrite Hvs in Hxs. injection Hxs as ->.
    by destruct xs. }
  rewrite (decide_False (P := xa = vc)) by done. rewrite Hxs. cbn [fmap option_fmap option_map].
  destruct (decide (yv = vc)); rewrite ?Hys; cbn [fmap option_fmap option_map];
    by rewrite strftime_all_tail.
Qed.

(** *** Worked examples *)

Example strftime_default : strftime "%B %y" (mkdate 2022 January 1) = "January 22".
Proof. reflexivity. Qed.

Example strftime_bar : strftime "%B %Y" (mkdate 2023 December 31) = "December 2023".
Proof. reflexivity. Qed.

Example strftime_numeric :
  strftime "%d/%m/%Y 100%%" (mkdate 2005 March 9) = "09/03/2005 100%".
Proof. reflexivity. Qed.

Example tail_positive : list_tail 2 [1; 2; 3] = [2; 3].
Proof. reflexivity. Qed.

Example tail_longer_than_list : list_tail 5 [1; 2; 3] = [1; 2; 3].
Proof. reflexivity. Qed.

Example tail_negative : list_tail (-1) [1; 2; 3] = [2; 3].
Proof. reflexivity. Qed.

Example arg_sort_dates : series_arg_sort demo_dates = [1; 2; 0]%nat.
Proof. vm_compute. reflexivity. Qed.

(** Rows with the same date stay in table order, nulls come first. *)
Example arg_sort_ties :
  series_arg_sort
    (Date [day_of 2022 March 1; None; day_of 2022 January 1;
           day_of 2022 March 1; None; day_of 2022 January 1])
  = [1; 4; 2; 5; 0; 3]%nat.
Proof. vm_compute. reflexivity. Qed.

(** The last two of three months. *)
Example scenario_window :
  exists fig tr h',
    plot_line_chart 0%nat "date" "value" FORMAT_TEMPLATES.number "Line Chart"
      CHART_COLORS.orange 2 45 "%B %y" [scenario] = (Ok fig, h')
    /\ data fig = [tr]
    /\ tr_x tr = Date [day_of 2022 February 1; day_of 2022 March 1]
    /\ tr_y tr = Int64 [Some 200; Some 150]
    /\ tr_texttemplate tr
       = Some ("<b style=" +:+ dquote +:+ "color:white;" +:+ dquote
               +:+ ">%{text:,.0f}</b>")
    /\ xaxis_ticktext (layout fig) = Some ["February 22"; "March 22"].
Proof.
  eexists _, _, _. split; [vm_compute; reflexivity|].
  repeat split; reflexivity.
Qed.

(** ** The chart builders *)

(** C1, counterexample: a table with three rows and both columns, whose
    date column has one missing date; with [n_points = 3] the missing date
    is in the window and formatting its tick raises [AttributeError]. *)
Lemma line_chart_missing_date_raises :
  (1 <= height with_gap)%nat
  /\ frame_ok with_gap = true
  /\ is_Some (get_column with_gap "date")
  /\ is_Some (get_column with_gap "Value1")
  /\ 0 < 3
  /\ exists h',
       plot_line_chart 0%nat "date" "Value1" FORMAT_TEMPLATES.number
         "Line Chart" CHART_COLORS.orange 3 45 "%B %y" [with_gap]
       = (Raise (AttributeError "strftime"), h').
Proof.
  split; [cbn; lia|]. split; [reflexivity|].
  split; [by eexists|]. split; [by eexists|]. split; [lia|].
  eexists. vm_compute. reflexivity.
Qed.

(** C1, as amended: on a table with at least one row that has the value
    column and a date column of dates, none missing, [plot_line_chart]
    with a positive [n_points] below [2^64] returns a figure whose single
    series has exactly [min(n_points, rows)] points; with fewer than
    [n_points] rows the window is every row, in date order, and nothing is
    raised. *)
Theorem line_chart_point_count h rf (df : DataFrame) dc yv key ys yf ti co n ta fmt :
  h !! rf = Some df ->
  frame_ok df = true ->
  (1 <= height df)%nat ->
  get_column df dc = Some key ->
  date_column key = true ->
  get_column df yv = Some ys ->
  0 < n ->
  n < tail_limit ->
  exists fig tr h',
    plot_line_chart rf dc yv yf ti co n ta fmt h = (Ok fig, h')
    /\ data fig = [tr]
    /\ series_len (tr_x tr) = Nat.min (Z.to_nat n) (height df)
    /\ series_len (tr_y tr) = Nat.min (Z.to_nat n) (height df)
    /\ ((height df <= Z.to_nat n)%nat ->
        tr_x tr = series_gather (series_arg_sort key) key
        /\ tr_y tr = series_gather (series_arg_sort key) ys
        /\ series_sorted (tr_x tr)).
Proof.
  intros Hdf Hok Hrows Hkey Hdates Hys Hn _.
  assert (Hlen : series_len key = height df) by by eapply frame_ok_height.
  apply list_lookup_total_correct in Hdf. rewrite <- Hdf in Hkey, Hys.
  erewrite plot_line_chart_ok by done.
  eexists _, _, _. split; [reflexivity|]. split; [reflexivity|].
  cbn [tr_x tr_y].
  rewrite !series_len_window, Hlen. unfold tail_len.
  destruct (Z.ltb_spec n 0); [lia|]. split; [done|]. split; [done|].
  intros Hall. split; [|split]; [| |apply window_key_sorted].
  all: unfold window; rewrite series_tail_all;
    rewrite ?series_len_gather, ?length_series_arg_sort; [done|lia..].
Qed.

(** Three rows under the default of twelve points: all three are shown, in
    date order. *)
Lemma line_chart_point_count_witness :
  exists fig tr h',
    plot_line_chart 0%nat "date" "Value1" FORMAT_TEMPLATES.number "Line Chart"
      CHART_COLORS.orange 12 45 "%B %y" [demo] = (Ok fig, h')
    /\ data fig = [tr]
    /\ series_len (tr_x tr) = 3%nat
    /\ series_len (tr_y tr) = 3%nat
    /\ tr_x tr = Date [day_of 2022 January 1; day_of 2022 February 1;
                       day_of 2022 March 1]
    /\ tr_y tr = Int64 [Some 100; Some 200; Some 150].
Proof.
  destruct (line_chart_point_count [demo] 0%nat demo "date" "Value1"
              demo_dates demo_value1 FORMAT_TEMPLATES.number "Line Chart"
              CHART_COLORS.orange 12 45 "%B %y")
    as (fig & tr & h' & Hrun & Hdata & Hx & Hy & Hall);
    [reflexivity | reflexivity | cbn; lia | reflexivity | reflexivity
    | reflexivity | lia | reflexivity |].
  destruct Hall as (Hax & Hay & _); [cbn; lia|].
  exists fig, tr, h'. split; [exact Hrun|]. split; [exact Hdata|].
  split; [exact Hx|]. split; [exact Hy|]. split.
  - rewrite Hax. vm_compute. reflexivity.
  - rewrite Hay. vm_compute. reflexivity.
Defined.

(** C2, counterexample: [plot_bar_chart] on a table whose rows are not in
    date order returns the dates as they stand, March before January. *)
Lemma bar_chart_keeps_row_order :
  exists fig tr h',
    plot_bar_chart_defaults 0%nat "date" "Monto_Efectivo" [demo] = (Ok fig, h')
    /\ data fig = [tr]
    /\ tr_x tr = demo_dates
    /\ ~ series_sorted (tr_x tr).
Proof.
  eexists _, _, _. split; [vm_compute; reflexivity|].
  split; [reflexivity|]. split; [reflexivity|].
  cbn. intros Hsorted. apply Sorted_inv in Hsorted as [_ Hhd].
  by apply HdRel_inv in Hhd.
Qed.

(** C2, as amended: the x values of every series that [plot_line_chart]
    and [plot_dual_line_chart] return are in ascending order of the date
    column, whatever the order of the rows; [plot_bar_chart] does not sort,
    its x values are the last [n_points] cells of the x column in the order
    of the table. *)
Theorem chart_x_order h rf :
  (forall dc yv yf ti co n ta fmt fig h',
      plot_line_chart rf dc yv yf ti co n ta fmt h = (Ok fig, h') ->
      Forall (fun tr => series_sorted (tr_x tr)) (data fig))
  /\ (forall dc y1c y2c ti n1 n2 c1 c2 f1 f2 fmt ta n fig h',
      plot_dual_line_chart rf dc y1c y2c ti n1 n2 c1 c2 f1 f2 fmt ta n h
        = (Ok fig, h') ->
      Forall (fun tr => series_sorted (tr_x tr)) (data fig))
  /\ (forall xa yv ti co vc k n fig h' xs,
      plot_bar_chart rf xa yv ti co vc k n h = (Ok fig, h') ->
      xa <> vc ->
      get_column (h !!! rf) xa = Some xs ->
      Forall (fun tr => tr_x tr = series_tail n xs) (data fig)).
Proof.
  split; [|split].
  - intros dc yv yf ti co n ta fmt fig h'. rewrite plot_line_chart_run.
    cbv zeta. repeat case_match; try done.
    intros [= <- _]. repeat constructor. apply window_key_sorted.
  - intros dc y1c y2c ti n1 n2 c1 c2 f1 f2 fmt ta n fig h'.
    rewrite plot_dual_line_chart_run.
    cbv zeta. repeat case_match; try done.
    intros [= <- _]. repeat constructor; apply window_key_sorted.
  - intros xa yv ti co vc k n fig h' xs. rewrite plot_bar_chart_run.
    cbv zeta.
    destruct (get_column (h !!! rf) vc) as [vs|] eqn:Hvs; [|done].
    destruct (series_div vs k) as [q|]; [|done].
    rewrite !get_column_frame_tail, (get_column_replace xa vc q _ vs) by done.
    intros Hrun Hne Hxs. rewrite decide_False, Hxs in Hrun by done.
    cbn [fmap option_fmap option_map] in Hrun.
    repeat case_match; try done.
    injection Hrun as <- _. by repeat constructor.
Qed.

Lemma chart_x_order_witness :
  exists fig h',
    plot_line_chart 0%nat "date" "Value1" FORMAT_TEMPLATES.number "Line Chart"
      CHART_COLORS.orange 12 45 "%B %y" [demo] = (Ok fig, h')
    /\ Forall (fun tr => series_sorted (tr_x tr)) (data fig).
Proof.
  eexists _, _. split; [vm_compute; reflexivity|].
  eapply (proj1 (chart_x_order [demo] 0%nat) "date" "Value1"
            FORMAT_TEMPLATES.number "Line Chart" CHART_COLORS.orange
            12 45 "%B %y").
  vm_compute. reflexivity.
Defined.

Lemma tail_len_nonpositive n len :
  n <= 0 ->
  tail_len n len = if n =? 0 then 0%nat else (len - Z.to_nat (- n))%nat.
Proof.
  intros Hn. unfold tail_len.
  destruct (Z.ltb_spec n 0), (Z.eqb_spec n 0); lia.
Qed.

(** C3, counterexample: with [n_points = -1] each builder returns a figure,
    over the last two of the three rows. *)
Lemma negative_n_points_returns :
  (exists fig tr h',
      plot_line_chart 0%nat "date" "Value1" FORMAT_TEMPLATES.number
        "Line Chart" CHART_COLORS.orange (-1) 45 "%B %y" [demo] = (Ok fig, h')
      /\ data fig = [tr] /\ series_len (tr_x tr) = 2%nat)
  /\ (exists fig h',
      plot_dual_line_chart 0%nat "date" "Value1" "Value2" "Both" "a" "b"
        CHART_COLORS.blue CHART_COLORS.gray FORMAT_TEMPLATES.number
        FORMAT_TEMPLATES.percentage "%B %y" 45 (-1) [demo] = (Ok fig, h')
      /\ (series_len ∘ tr_x) <$> data fig = [2%nat; 2%nat])
  /\ (exists fig tr h',
      plot_bar_chart 0%nat "date" "Monto_Efectivo" "Bar Chart"
        CHART_COLORS.orange "Monto_Efectivo" 1000000 (-1) [demo] = (Ok fig, h')
      /\ data fig = [tr] /\ series_len (tr_x tr) = 2%nat).
Proof.
  split; [|split].
  - eexists _, _, _. split; [vm_compute; reflexivity|]. by split.
  - eexists _, _. split; [vm_compute; reflexivity|]. done.
  - eexists _, _, _. split; [vm_compute; reflexivity|]. by split.
Qed.

Lemma list_tail_nonpositive {A} n (xs : list A) :
  n <= 0 ->
  list_tail n xs = if n =? 0 then [] else drop (Z.to_nat (- n)) xs.
Proof.
  intros Hn. unfold list_tail.
  destruct (Z.ltb_spec n 0), (Z.eqb_spec n 0); try lia; [done|].
  subst n. apply drop_ge. cbn. lia.
Qed.

Lemma series_tail_nonpositive n s :
  n <= 0 -> series_tail n s = all_but_first n s.
Proof.
  intros Hn. unfold all_but_first.
  destruct s; cbn; rewrite list_tail_nonpositive by done;
    by destruct (n =? 0).
Qed.

Lemma window_nonpositive n key s :
  n <= 0 ->
  window n key s = all_but_first n (series_gather (series_arg_sort key) s).
Proof. intros Hn. unfold window. by apply series_tail_nonpositive. Qed.

(** C3, as amended: a [n_points] that is zero or negative is not rejected.
    On a table that has the named columns (dates without nulls on the x
    axis, a numeric [value_column] for the bar chart) each builder returns
    a figure.  Its series hold no point when [n_points = 0]; when
    [n_points < 0] they hold every row but the first [abs(n_points)]: of
    the table in date order for the line and dual charts, of the table as
    it stands for the bar chart. *)
Theorem nonpositive_n_points h rf (df : DataFrame) n :
  h !! rf = Some df ->
  frame_ok df = true ->
  n <= 0 ->
  let points := if n =? 0 then 0%nat else (height df - Z.to_nat (- n))%nat in
  (forall dc yv key ys yf ti co ta fmt,
      get_column df dc = Some key -> date_column key = true ->
      get_column df yv = Some ys ->
      exists fig tr h',
        plot_line_chart rf dc yv yf ti co n ta fmt h = (Ok fig, h')
        /\ data fig = [tr]
        /\ tr_x tr = all_but_first n (series_gather (series_arg_sort key) key)
        /\ tr_y tr = all_but_first n (series_gather (series_arg_sort key) ys)
        /\ series_len (tr_x tr) = points
        /\ series_len (tr_y tr) = points)
  /\ (forall dc y1c y2c key y1 y2 ti n1 n2 c1 c2 f1 f2 fmt ta,
      get_column df dc = Some key -> date_column key = true ->
      get_column df y1c = Some y1 -> get_column df y2c = Some y2 ->
      exists fig t1 t2 h',
        plot_dual_line_chart rf dc y1c y2c ti n1 n2 c1 c2 f1 f2 fmt ta n h
          = (Ok fig, h')
        /\ data fig = [t1; t2]
        /\ tr_x t1 = all_but_first n (series_gather (series_arg_sort key) key)
        /\ tr_x t2 = all_but_first n (series_gather (series_arg_sort key) key)
        /\ tr_y t1 = all_but_first n (series_gather (series_arg_sort key) y1)
        /\ tr_y t2 = all_but_first n (series_gather (series_arg_sort key) y2)
        /\ Forall (fun tr => series_len (tr_x tr) = points
                             /\ series_len (tr_y tr) = points) (data fig))
  /\ (forall xa yv xs ys vs ti co vc k,
      get_column df vc = Some vs -> numeric_column vs = true ->
      get_column df xa = Some xs -> date_column xs = true ->
      get_column df yv = Some ys ->
      exists fig tr h' q,
        plot_bar_chart rf xa yv ti co vc k n h = (Ok fig, h')
        /\ data fig = [tr]
        /\ series_div vs k = Some q
        /\ tr_x tr = all_but_first n xs
        /\ tr_y tr = all_but_first n (if decide (yv = vc) then q else ys)
        /\ series_len (tr_x tr) = points
        /\ series_len (tr_y tr) = points).
Proof.
  intros Hdf Hok Hn points.
  apply list_lookup_total_correct in Hdf.
  assert (Hlen : forall c s, get_column df c = Some s ->
            tail_len n (series_len s) = points).
  { intros c s Hs. rewrite (frame_ok_height df c s) by done.
    by apply tail_len_nonpositive. }
  split; [|split].
  - intros dc yv key ys yf ti co ta fmt Hkey Hdates Hys.
    rewrite <- Hdf in Hkey, Hys. erewrite plot_line_chart_ok by done.
    rewrite Hdf in Hkey. eexists _, _, _. split; [reflexivity|].
    split; [reflexivity|]. cbn [tr_x tr_y].
    split; [by apply window_nonpositive|].
    split; [by apply window_nonpositive|].
    rewrite !series_len_window. split; by eapply Hlen.
  - intros dc y1c y2c key y1 y2 ti n1 n2 c1 c2 f1 f2 fmt ta Hkey Hdates Hy1 Hy2.
    rewrite <- Hdf in Hkey, Hy1, Hy2.
    erewrite plot_dual_line_chart_ok by done.
    rewrite Hdf in Hkey. eexists _, _, _, _. split; [reflexivity|].
    split; [reflexivity|]. cbn [tr_x tr_y].
    do 4 (split; [by apply window_nonpositive|]).
    repeat constructor; cbn; rewrite series_len_window; by eapply Hlen.
  - intros xa yv xs ys vs ti co vc k Hvs Hnum Hxs Hdates Hys.
    assert (exists q, series_div vs k = Some q
                      /\ series_len q = series_len vs) as (q & Hq & Hqlen).
    { destruct vs; try done; eexists; (split; [reflexivity|]); cbn;
        unfold map_cells; by rewrite length_fmap. }
    pose proof Hvs as Hvs'. pose proof Hxs as Hxs'. pose proof Hys as Hys'.
    rewrite <- Hdf in Hvs', Hxs', Hys'.
    erewrite plot_bar_chart_ok by done.
    eexists _, _, _, q. split; [reflexivity|]. split; [reflexivity|].
    split; [done|]. cbn [tr_x tr_y].
    split; [by apply series_tail_nonpositive|].
    split; [by apply series_tail_nonpositive|].
    rewrite !series_len_tail. split; [by eapply Hlen|].
    destruct (decide (yv = vc)); [rewrite Hqlen|]; by eapply Hlen.
Qed.

(** With [n_points = -1] the earliest of the three months is left out. *)
Lemma nonpositive_n_points_witness :
  exists fig tr h',
    plot_line_chart 0%nat "date" "Value1" FORMAT_TEMPLATES.number "Line Chart"
      CHART_COLORS.orange (-1) 45 "%B %y" [demo] = (Ok fig, h')
    /\ data fig = [tr]
    /\ tr_x tr = Date [day_of 2022 February 1; day_of 2022 March 1]
    /\ tr_y tr = Int64 [Some 200; Some 150]
    /\ series_len (tr_x tr) = 2%nat
    /\ series_len (tr_y tr) = 2%nat.
Proof.
  destruct (proj1 (nonpositive_n_points [demo] 0%nat demo (-1)
                     eq_refl eq_refl ltac:(lia))
              "date" "Value1" demo_dates demo_value1 FORMAT_TEMPLATES.number
              "Line Chart" CHART_COLORS.orange 45 "%B %y"
              eq_refl eq_refl eq_refl)
    as (fig & tr & h' & Hrun & Hdata & Hx & Hy & Hlx & Hly).
  exists fig, tr, h'. split; [exact Hrun|]. split; [exact Hdata|].
  split; [rewrite Hx; vm_compute; reflexivity|].
  split; [rewrite Hy; vm_compute; reflexivity|].
  split; [exact Hlx | exact Hly].
Defined.





(** *** Division, said without the code that does it *)








Lemma append_empty (s : string) : s +:+ EmptyString = s.
Proof.
  induction s as [|c s IH]; [done|].
  change (String c (s +:+ EmptyString) = String c s). by rewrite IH.
Qed.

(** The month with the year in full, and the month with the last two
    digits of the year. *)
Lemma strftime_month_full_year dt :
  strftime "%B %Y" dt = month_name (month_of dt) +:+ " " +:+ pretty (year dt).
Proof. cbn. rewrite append_empty. reflexivity. Qed.

Lemma strftime_month_short_year dt :
  strftime "%B %y" dt
  = month_name (month_of dt) +:+ " " +:+ two_digits (year dt `mod` 100).
Proof. cbn. rewrite append_empty. reflexivity. Qed.

(** C6: the tick labels of [plot_bar_chart] are always the month name and
    the full year, whatever its arguments, none of which is a date format;
    those of [plot_line_chart] follow its [date_format] argument, and the
    call that leaves it to its default gives the month name and a two-digit
    year, a different format. *)
Theorem tick_label_formats h rf (df : DataFrame) :
  h !! rf = Some df ->
  (forall xa yv xs ys vs ti co vc k n,
      get_column df vc = Some vs -> numeric_column vs = true ->
      get_column df xa = Some xs -> date_column xs = true ->
      get_column df yv = Some ys ->
      exists fig h',
        plot_bar_chart rf xa yv ti co vc k n h = (Ok fig, h')
        /\ xaxis_ticktext (layout fig)
           = Some ((fun dt => month_name (month_of dt) +:+ " "
                              +:+ pretty (year dt))
                     <$> series_dates (series_tail n xs)))
  /\ (forall dc yv key ys yf ti co n ta fmt,
      get_column df dc = Some key -> date_column key = true ->
      get_column df yv = Some ys ->
      exists fig h',
        plot_line_chart rf dc yv yf ti co n ta fmt h = (Ok fig, h')
        /\ xaxis_ticktext (layout fig)
           = Some (strftime fmt <$> series_dates (window n key key)))
  /\ (forall dc yv key ys,
      get_column df dc = Some key -> date_column key = true ->
      get_column df yv = Some ys ->
      exists fig h',
        plot_line_chart_defaults rf dc yv h = (Ok fig, h')
        /\ xaxis_ticktext (layout fig)
           = Some ((fun dt => month_name (month_of dt) +:+ " "
                              +:+ two_digits (year dt `mod` 100))
                     <$> series_dates (window CHART_DEFAULTS.n_points key key)))
  /\ strftime "%B %Y" (mkdate 2022 January 1) = "January 2022"
  /\ strftime CHART_DEFAULTS.date_format (mkdate 2022 January 1) = "January 22".
Proof.
  intros Hdf. apply list_lookup_total_correct in Hdf. subst df.
  split; [|split; [|split; [|by split]]].
  - intros xa yv xs ys vs ti co vc k n Hvs Hnum Hxs Hdates Hys.
    assert (exists q, series_div vs k = Some q) as [q Hq]
      by (destruct vs; try done; by eexists).
    erewrite plot_bar_chart_ok by done.
    eexists _, _. split; [reflexivity|]. cbn [layout xaxis_ticktext].
    f_equal. apply list_fmap_ext. intros _ dt _. apply strftime_month_full_year.
  - intros dc yv key ys yf ti co n ta fmt Hkey Hdates Hys.
    erewrite plot_line_chart_ok by done.
    eexists _, _. split; reflexivity.
  - intros dc yv key ys Hkey Hdates Hys. unfold plot_line_chart_defaults.
    erewrite plot_line_chart_ok by done.
    eexists _, _. split; [reflexivity|]. cbn [layout xaxis_ticktext].
    f_equal. apply list_fmap_ext. intros _ dt _.
    apply strftime_month_short_year.
Qed.

Lemma tick_label_formats_witness :
  exists fig h',
    plot_bar_chart 0%nat "date" "Monto_Efectivo" "Bar Chart" CHART_COLORS.orange
      "Monto_Efectivo" 1000000 2 [demo] = (Ok fig, h')
    /\ xaxis_ticktext (layout fig)
       = Some ((fun dt => month_name (month_of dt) +:+ " " +:+ pretty (year dt))
                 <$> series_dates (series_tail 2 demo_dates)).
Proof.
  apply (proj1 (tick_label_formats [demo] 0%nat demo eq_refl)
           "date" "Monto_Efectivo" demo_dates demo_monto demo_monto
           "Bar Chart" CHART_COLORS.orange "Monto_Efectivo" 1000000 2);
    reflexivity.
Defined.

(** C7: the two series of [plot_dual_line_chart] have the same x values,
    which are also the tick values, and each its own text template: the
    first is made from [y1_format] and labels the first column, the second
    from [y2_format] and labels the second column; different formats, such
    as the percentage and the number templates, give different templates. *)
Theorem dual_chart_formats h rf (df : DataFrame) dc y1c y2c key y1 y2
    ti n1 n2 c1 c2 f1 f2 fmt ta n :
  h !! rf = Some df ->
  get_column df dc = Some key ->
  date_column key = true ->
  get_column df y1c = Some y1 ->
  get_column df y2c = Some y2 ->
  exists fig t1 t2 h',
    plot_dual_line_chart rf dc y1c y2c ti n1 n2 c1 c2 f1 f2 fmt ta n h
      = (Ok fig, h')
    /\ data fig = [t1; t2]
    /\ tr_texttemplate t1 = Some ("%" +:+ f1)
    /\ tr_texttemplate t2 = Some ("%" +:+ f2)
    /\ tr_text t1 = Some (window n key y1)
    /\ tr_text t2 = Some (window n key y2)
    /\ tr_x t1 = tr_x t2
    /\ xaxis_tickvals (layout fig) = Some (tr_x t1)
    /\ (f1 <> f2 -> tr_texttemplate t1 <> tr_texttemplate t2)
    /\ FORMAT_TEMPLATES.percentage <> FORMAT_TEMPLATES.number.
Proof.
  intros Hdf Hkey Hdates Hy1 Hy2.
  apply list_lookup_total_correct in Hdf. subst df.
  erewrite plot_dual_line_chart_ok by done.
  eexists _, _, _, _. split; [reflexivity|]. split; [reflexivity|]. cbn.
  repeat split; try done. intros Hne [= Heq]. done.
Qed.

Lemma dual_chart_formats_witness :
  exists fig t1 t2 h',
    plot_dual_line_chart 0%nat "date" "Value2" "Value1" "Both" "Share" "Count"
      CHART_COLORS.blue CHART_COLORS.gray FORMAT_TEMPLATES.percentage
      FORMAT_TEMPLATES.number "%B %y" 45 12 [demo] = (Ok fig, h')
    /\ data fig = [t1; t2]
    /\ tr_texttemplate t1 = Some ("%" +:+ FORMAT_TEMPLATES.percentage)
    /\ tr_texttemplate t2 = Some ("%" +:+ FORMAT_TEMPLATES.number)
    /\ tr_text t1 = Some (window 12 demo_dates demo_value2)
    /\ tr_text t2 = Some (window 12 demo_dates demo_value1)
    /\ tr_x t1 = tr_x t2
    /\ xaxis_tickvals (layout fig) = Some (tr_x t1)
    /\ (FORMAT_TEMPLATES.percentage <> FORMAT_TEMPLATES.number ->
        tr_texttemplate t1 <> tr_texttemplate t2)
    /\ FORMAT_TEMPLATES.percentage <> FORMAT_TEMPLATES.number.
Proof.
  apply (dual_chart_formats [demo] 0%nat demo "date" "Value2" "Value1"
           demo_dates demo_value2 demo_value1);
    reflexivity.
Defined.

(** *** The store after a call *)

Lemma grown_lookup h h' rf (df : DataFrame) :
  grown h h' -> h !! rf = Some df -> h' !! rf = Some df.
Proof.
  intros [ext ->] Hdf. rewrite lookup_app_l; [done|].
  by eapply lookup_lt_Some.
Qed.

Ltac grown_cases :=
  cbv zeta; repeat case_match; cbn [snd];
  first [ by exists [] ; rewrite app_nil_r
        | eexists; by rewrite <- app_assoc ].

Lemma plot_line_chart_grown h rf dc yv yf ti co n ta fmt :
  grown h (plot_line_chart rf dc yv yf ti co n ta fmt h).2.
Proof. rewrite plot_line_chart_run. grown_cases. Qed.

Lemma plot_dual_line_chart_grown h rf dc y1c y2c ti n1 n2 c1 c2 f1 f2 fmt ta n :
  grown h (plot_dual_line_chart rf dc y1c y2c ti n1 n2 c1 c2 f1 f2 fmt ta n h).2.
Proof. rewrite plot_dual_line_chart_run. grown_cases. Qed.

Lemma plot_bar_chart_grown h rf xa yv ti co vc k n :
  grown h (plot_bar_chart rf xa yv ti co vc k n h).2.
Proof. rewrite plot_bar_chart_run. grown_cases. Qed.

(** C8: no builder changes its input table.  After a call on any frame
    [arg], whether it returned a figure or raised, every frame that was in
    the store, the input table among them, is the frame it was before the
    call. *)
Theorem builders_leave_tables h rf (df : DataFrame) :
  h !! rf = Some df ->
  (forall arg dc yv yf ti co n ta fmt,
      (plot_line_chart arg dc yv yf ti co n ta fmt h).2 !! rf = Some df)
  /\ (forall arg dc y1c y2c ti n1 n2 c1 c2 f1 f2 fmt ta n,
      (plot_dual_line_chart arg dc y1c y2c ti n1 n2 c1 c2 f1 f2 fmt ta n h).2
        !! rf = Some df)
  /\ (forall arg xa yv ti co vc k n,
      (plot_bar_chart arg xa yv ti co vc k n h).2 !! rf = Some df).
Proof.
  intros Hdf. split; [|split]; intros; (eapply grown_lookup; [|done]).
  - apply plot_line_chart_grown.
  - apply plot_dual_line_chart_grown.
  - apply plot_bar_chart_grown.
Qed.

Lemma builders_leave_tables_witness :
  (plot_bar_chart 0%nat "date" "Monto_Efectivo" "Bar Chart" CHART_COLORS.orange
     "Monto_Efectivo" 1000000 12 [demo]).2 !! 0%nat = Some demo.
Proof.
  apply (proj2 (proj2 (builders_leave_tables [demo] 0%nat demo eq_refl))).
Defined.

(** C9, counterexample: two rows on the same day give two tick labels for
    the one distinct date of the window. *)
Lemma one_label_per_row_not_per_date :
  exists fig tr h' labels,
    plot_line_chart_defaults 0%nat "date" "Value1" [same_day] = (Ok fig, h')
    /\ data fig = [tr]
    /\ xaxis_ticktext (layout fig) = Some labels
    /\ length labels = 2%nat
    /\ length (remove_dups (series_dates (tr_x tr))) = 1%nat.
Proof.
  eexists _, _, _, _. split; [vm_compute; reflexivity|].
  split; [reflexivity|]. split; [reflexivity|]. split; [reflexivity|].
  vm_compute. reflexivity.
Qed.

(** C9, as amended: the tick labels of [plot_line_chart] are one formatted
    string per data point of the window, in the order of the points: the
    label at each position is [date_format] applied to the date of the
    point at that position.  A date that occurs on several rows is labelled
    once per row. *)
Theorem line_chart_tick_labels h rf (df : DataFrame) dc yv key ys yf ti co n ta fmt :
  h !! rf = Some df ->
  get_column df dc = Some key ->
  date_column key = true ->
  get_column df yv = Some ys ->
  exists fig tr h' dates,
    plot_line_chart rf dc yv yf ti co n ta fmt h = (Ok fig, h')
    /\ data fig = [tr]
    /\ tr_x tr = Date (Some <$> dates)
    /\ xaxis_tickvals (layout fig) = Some (tr_x tr)
    /\ xaxis_ticktext (layout fig) = Some (strftime fmt <$> dates)
    /\ length (strftime fmt <$> dates) = series_len (tr_x tr).
Proof.
  intros Hdf Hkey Hdates Hys.
  apply list_lookup_total_correct in Hdf. subst df.
  erewrite plot_line_chart_ok by done.
  eexists _, _, _, (series_dates (window n key key)).
  split; [reflexivity|]. split; [reflexivity|]. cbn.
  split; [by apply window_date_column|]. split; [done|]. split; [done|].
  rewrite (window_date_column n key Hdates) at 2. cbn.
  by rewrite !length_fmap.
Qed.

Lemma line_chart_tick_labels_witness :
  exists fig tr h' dates,
    plot_line_chart 0%nat "date" "Value1" FORMAT_TEMPLATES.number "Line Chart"
      CHART_COLORS.orange 2 45 "%B %y" [demo] = (Ok fig, h')
    /\ data fig = [tr]
    /\ tr_x tr = Date (Some <$> dates)
    /\ xaxis_tickvals (layout fig) = Some (tr_x tr)
    /\ xaxis_ticktext (layout fig) = Some (strftime "%B %y" <$> dates)
    /\ length (strftime "%B %y" <$> dates) = series_len (tr_x tr).
Proof.
  apply (line_chart_tick_labels [demo] 0%nat demo "date" "Value1"
           demo_dates demo_value1);
    reflexivity.
Defined.



(** ** Further properties of the builders *)

Lemma arg_sort_Permutation {A} (leb : A -> A -> bool) (keys : list (option A)) :
  arg_sort leb keys ≡ₚ seq 0 (length keys).
Proof.
  unfold arg_sort. rewrite merge_sort_Permutation.
  rewrite snd_zip; [done|]. by rewrite length_seq.
Qed.

Lemma series_arg_sort_Permutation key :
  series_arg_sort key ≡ₚ seq 0 (series_len key).
Proof. destruct key; apply arg_sort_Permutation. Qed.

(** X1: sorting keeps the rows of the table together.  The x values, the y
    values and the text of the series [plot_line_chart] returns are read
    at the same row numbers, which are a rearrangement of the row numbers
    of the table, so every point is a row of the table and the text at a
    point is its own y value. *)
Theorem line_chart_points_are_rows h rf (df : DataFrame) dc yv key ys
    yf ti co n ta fmt :
  h !! rf = Some df ->
  frame_ok df = true ->
  get_column df dc = Some key ->
  date_column key = true ->
  get_column df yv = Some ys ->
  exists fig tr h' rows,
    plot_line_chart rf dc yv yf ti co n ta fmt h = (Ok fig, h')
    /\ data fig = [tr]
    /\ rows ≡ₚ seq 0 (height df)
    /\ tr_x tr = series_tail n (series_gather rows key)
    /\ tr_y tr = series_tail n (series_gather rows ys)
    /\ tr_text tr = Some (tr_y tr).
Proof.
  intros Hdf Hok Hkey Hdates Hys.
  assert (Hlen : series_len key = height df) by by eapply frame_ok_height.
  apply list_lookup_total_correct in Hdf. rewrite <- Hdf in Hkey, Hys.
  erewrite plot_line_chart_ok by done.
  eexists _, _, _, (series_arg_sort key).
  split; [reflexivity|]. split; [reflexivity|].
  split; [by rewrite series_arg_sort_Permutation, Hlen|]. done.
Qed.

Lemma line_chart_points_are_rows_witness :
  exists fig tr h' rows,
    plot_line_chart 0%nat "date" "Value1" FORMAT_TEMPLATES.number "Line Chart"
      CHART_COLORS.orange 2 45 "%B %y" [demo] = (Ok fig, h')
    /\ data fig = [tr]
    /\ rows ≡ₚ seq 0 (height demo)
    /\ tr_x tr = series_tail 2 (series_gather rows demo_dates)
    /\ tr_y tr = series_tail 2 (series_gather rows demo_value1)
    /\ tr_text tr = Some (tr_y tr).
Proof.
  apply (line_chart_points_are_rows [demo] 0%nat demo "date" "Value1"
           demo_dates demo_value1);
    reflexivity.
Defined.

(** X2: the two series of [plot_dual_line_chart] are aligned.  Both are
    read at the same row numbers as the shared x values, so the two values
    above one date come from one row of the table, and both series have as
    many points as there are x values. *)
Theorem dual_chart_series_aligned h rf (df : DataFrame) dc y1c y2c key y1 y2
    ti n1 n2 c1 c2 f1 f2 fmt ta n :
  h !! rf = Some df ->
  frame_ok df = true ->
  get_column df dc = Some key ->
  date_column key = true ->
  get_column df y1c = Some y1 ->
  get_column df y2c = Some y2 ->
  exists fig t1 t2 h' rows,
    plot_dual_line_chart rf dc y1c y2c ti n1 n2 c1 c2 f1 f2 fmt ta n h
      = (Ok fig, h')
    /\ data fig = [t1; t2]
    /\ rows ≡ₚ seq 0 (height df)
    /\ tr_x t1 = series_tail n (series_gather rows key)
    /\ tr_x t2 = series_tail n (series_gather rows key)
    /\ tr_y t1 = series_tail n (series_gather rows y1)
    /\ tr_y t2 = series_tail n (series_gather rows y2)
    /\ series_len (tr_y t1) = series_len (tr_x t1)
    /\ series_len (tr_y t2) = series_len (tr_x t2).
Proof.
  intros Hdf Hok Hkey Hdates Hy1 Hy2.
  assert (Hlen : series_len key = height df) by by eapply frame_ok_height.
  apply list_lookup_total_correct in Hdf. rewrite <- Hdf in Hkey, Hy1, Hy2.
  erewrite plot_dual_line_chart_ok by done.
  eexists _, _, _, _, (series_arg_sort key).
  split; [reflexivity|]. split; [reflexivity|].
  split; [by rewrite series_arg_sort_Permutation, Hlen|].
  cbn. by rewrite !series_len_window.
Qed.

Lemma dual_chart_series_aligned_witness :
  exists fig t1 t2 h' rows,
    plot_dual_line_chart 0%nat "date" "Value1" "Value2" "Both" "a" "b"
      CHART_COLORS.blue CHART_COLORS.gray FORMAT_TEMPLATES.number
      FORMAT_TEMPLATES.percentage "%B %y" 45 2 [demo] = (Ok fig, h')
    /\ data fig = [t1; t2]
    /\ rows ≡ₚ seq 0 (height demo)
    /\ tr_x t1 = series_tail 2 (series_gather rows demo_dates)
    /\ tr_x t2 = series_tail 2 (series_gather rows demo_dates)
    /\ tr_y t1 = series_tail 2 (series_gather rows demo_value1)
    /\ tr_y t2 = series_tail 2 (series_gather rows demo_value2)
    /\ series_len (tr_y t1) = series_len (tr_x t1)
    /\ series_len (tr_y t2) = series_len (tr_x t2).
Proof.
  apply (dual_chart_series_aligned [demo] 0%nat demo "date" "Value1" "Value2"
           demo_dates demo_value1 demo_value2);
    reflexivity.
Defined.

(** *** The latest dates *)

Lemma date_leb_spec (a c : date) :
  date_leb a c = true <->
  year a < year c
  \/ (year a = year c
      /\ (month_number (month_of a) < month_number (month_of c)
          \/ (month_number (month_of a) = month_number (month_of c)
              /\ day a <= day c))).
Proof.
  unfold date_leb.
  destruct (Z.ltb_spec (year a) (year c)); [intuition lia|].
  destruct (Z.ltb_spec (year c) (year a)); [intuition (try done; lia)|].
  destruct (Z.ltb_spec (month_number (month_of a)) (month_number (month_of c)));
    [intuition lia|].
  destruct (Z.ltb_spec (month_number (month_of c)) (month_number (month_of a)));
    [intuition (try done; lia)|].
  rewrite Z.leb_le. intuition lia.
Qed.

Lemma date_leb_trans (a c e : date) :
  date_leb a c = true -> date_leb c e = true -> date_leb a e = true.
Proof. rewrite !date_leb_spec. lia. Qed.

Lemma Sorted_fmap_inv {A B} (R : relation A) (R' : relation B) (f : A -> B) xs :
  (forall a c, R' (f a) (f c) -> R a c) ->
  Sorted R' (f <$> xs) -> Sorted R xs.
Proof.
  intros Hback. induction xs as [|a xs IH]; [constructor|].
  cbn. intros [Hs Hhd]%Sorted_inv. constructor; [by apply IH|].
  destruct xs as [|c xs]; constructor.
  apply HdRel_inv in Hhd. by apply Hback.
Qed.

Lemma list_tail_drop {A} n (xs : list A) :
  exists k, list_tail n xs = drop k xs.
Proof. unfold list_tail. destruct (n <? 0); by eexists. Qed.

(** The sorted cells of a column of dates, as dates in ascending order. *)
Lemma sorted_dates vs :
  date_column (Date vs) = true ->
  exists w : list date,
    gather (arg_sort date_leb vs) vs = Some <$> w
    /\ StronglySorted (fun a c => date_leb a c = true) w
    /\ Some <$> w ≡ₚ vs.
Proof.
  intros Hdates%date_column_Forall.
  assert (Hsome : Forall is_Some (gather (arg_sort date_leb vs) vs))
    by by rewrite gather_arg_sort_Permutation.
  apply cells_all_Some in Hsome.
  exists (omap id (gather (arg_sort date_leb vs) vs)).
  split; [done|]. split; [|by rewrite <- Hsome, gather_arg_sort_Permutation].
  apply Sorted_StronglySorted.
  { intros a c e. apply date_leb_trans. }
  eapply (Sorted_fmap_inv _ (fun a c => nulls_first_leb date_leb a c) Some).
  { intros a c. cbn. by intros ?%Is_true_true. }
  rewrite <- Hsome. apply gather_arg_sort_sorted, date_leb_total.
Qed.

(** X3: [plot_line_chart] shows the latest dates.  The dates of the table
    split into those shown and those dropped, and no dropped date is later
    than a shown one. *)
Theorem line_chart_shows_latest_dates h rf (df : DataFrame) dc yv vs ys
    yf ti co n ta fmt :
  h !! rf = Some df ->
  get_column df dc = Some (Date vs) ->
  date_column (Date vs) = true ->
  get_column df yv = Some ys ->
  exists fig tr h' (dropped shown : list date),
    plot_line_chart rf dc yv yf ti co n ta fmt h = (Ok fig, h')
    /\ data fig = [tr]
    /\ tr_x tr = Date (Some <$> shown)
    /\ Some <$> (dropped ++ shown) ≡ₚ vs
    /\ (forall a c, a ∈ dropped -> c ∈ shown -> date_leb a c = true).
Proof.
  intros Hdf Hkey Hdates Hys.
  apply list_lookup_total_correct in Hdf. subst df.
  erewrite plot_line_chart_ok by done.
  destruct (sorted_dates vs Hdates) as (w & Hw & Hsorted & Hperm).
  destruct (list_tail_drop n w) as [k Hk].
  eexists _, _, _, (take k w), (drop k w).
  split; [reflexivity|]. split; [reflexivity|]. cbn [tr_x].
  split; [|split].
  - unfold window, series_tail, series_gather, series_lift, series_arg_sort.
    rewrite Hw. f_equal. rewrite <- Hk. unfold list_tail.
    rewrite length_fmap. destruct (n <? 0); by rewrite fmap_drop.
  - by rewrite take_drop.
  - intros a c Ha Hc. rewrite <- (take_drop k w) in Hsorted.
    by eapply (StronglySorted_app_1_elem_of _ _ _ a c) in Hsorted.
Qed.

Lemma line_chart_shows_latest_dates_witness :
  exists fig tr h' (dropped shown : list date),
    plot_line_chart 0%nat "date" "Value1" FORMAT_TEMPLATES.number "Line Chart"
      CHART_COLORS.orange 2 45 "%B %y" [demo] = (Ok fig, h')
    /\ data fig = [tr]
    /\ tr_x tr = Date (Some <$> shown)
    /\ Some <$> (dropped ++ shown)
       ≡ₚ [day_of 2022 March 1; day_of 2022 January 1; day_of 2022 February 1]
    /\ (forall a c, a ∈ dropped -> c ∈ shown -> date_leb a c = true).
Proof.
  apply (line_chart_shows_latest_dates [demo] 0%nat demo "date" "Value1"
           [day_of 2022 March 1; day_of 2022 January 1; day_of 2022 February 1]
           demo_value1);
    reflexivity.
Defined.

(** *** Missing dates *)

Section NullsFirst.
Context {A : Type} (leb : A -> A -> bool).

Lemma sorted_after_value a (s : list (option A)) :
  cells_sorted leb (Some a :: s) -> Forall is_Some s.
Proof.
  revert a. induction s as [|c s IH]; intros a; [constructor|].
  intros [Hs Hhd]%Sorted_inv. apply HdRel_inv in Hhd.
  destruct c as [c|]; [|done]. constructor; [by eexists|]. by eapply IH.
Qed.

(** In a sorted column the nulls come first, then the values. *)
Lemma sorted_nulls_then_values (s : list (option A)) :
  cells_sorted leb s ->
  exists m, s = replicate m None ++ (Some <$> omap id s).
Proof.
  induction s as [|[a|] s IH]; intros Hs.
  - by exists 0%nat.
  - exists 0%nat. cbn. f_equal.
    by apply cells_all_Some, (sorted_after_value a).
  - apply Sorted_inv in Hs as [Hs _]. destruct (IH Hs) as [m Hm].
    exists (S m). cbn. by f_equal.
Qed.
End NullsFirst.

Lemma strftime_all_null_first fmt cells :
  strftime_all fmt (Date (None :: cells)) = Raise (AttributeError "strftime").
Proof. reflexivity. Qed.

(** X4: missing dates sort first, so they only matter when they reach the
    window.  For a positive [n_points], [plot_line_chart] on a date column
    with nulls returns a figure exactly when the rows it shows, that is
    [min(n_points, rows)], are no more than the dates that are present;
    otherwise formatting the first tick raises [AttributeError]. *)
Theorem line_chart_null_dates h rf (df : DataFrame) dc yv vs ys
    yf ti co n ta fmt :
  h !! rf = Some df ->
  get_column df dc = Some (Date vs) ->
  get_column df yv = Some ys ->
  0 < n ->
  let present := length (omap id vs) in
  let shown := Nat.min (Z.to_nat n) (length vs) in
  ((shown <= present)%nat ->
   exists fig tr h',
     plot_line_chart rf dc yv yf ti co n ta fmt h = (Ok fig, h')
     /\ data fig = [tr]
     /\ series_len (tr_x tr) = shown
     /\ date_column (tr_x tr) = true)
  /\ ((present < shown)%nat ->
      exists h',
        plot_line_chart rf dc yv yf ti co n ta fmt h
          = (Raise (AttributeError "strftime"), h')).
Proof.
  intros Hdf Hkey Hys Hn present shown.
  apply list_lookup_total_correct in Hdf. subst df.
  rewrite plot_line_chart_run. cbv zeta. rewrite Hkey, Hys.
  pose proof (gather_arg_sort_sorted date_leb date_leb_total vs) as Hsorted.
  apply sorted_nulls_then_values in Hsorted as [m Hm].
  set (s := gather (arg_sort date_leb vs) vs) in *.
  assert (Hpresent : length (omap id s) = present).
  { unfold s, present. by rewrite gather_arg_sort_Permutation. }
  assert (Hlen : length s = length vs).
  { unfold s. by rewrite gather_arg_sort_Permutation. }
  assert (Hsum : (m + present = length vs)%nat).
  { rewrite <- Hlen, Hm at 1.
    by rewrite length_app, length_replicate, length_fmap, Hpresent. }
  assert (Hwin : window n (Date vs) (Date vs)
                 = Date (drop (length vs - Z.to_nat n) s)).
  { unfold window, series_tail, series_gather, series_lift, series_arg_sort.
    fold s. unfold list_tail. destruct (Z.ltb_spec n 0); [lia|].
    by rewrite Hlen. }
  rewrite Hwin. split.
  - intros Hfit.
    assert (Hdrop : drop (length vs - Z.to_nat n) s
                    = Some <$> drop (length vs - Z.to_nat n - m) (omap id s)).
    { rewrite Hm at 1. rewrite drop_app_ge; rewrite length_replicate; [|lia].
      by rewrite fmap_drop. }
    rewrite Hdrop, strftime_all_dates.
    eexists _, _, _. split; [reflexivity|]. split; [reflexivity|]. cbn.
    split.
    + rewrite length_fmap, length_drop, Hpresent. lia.
    + apply forallb_forall. intros c Hc%list_elem_of_In.
      apply list_elem_of_fmap in Hc as (a & -> & _).
      apply bool_decide_eq_true. by eexists.
  - intros Hshort.
    assert (Hdrop : exists rest, drop (length vs - Z.to_nat n) s = None :: rest).
    { rewrite Hm. rewrite drop_app_le by (rewrite length_replicate; lia).
      rewrite drop_replicate.
      destruct (m - (length vs - Z.to_nat n))%nat as [|j] eqn:Hj; [lia|].
      by eexists. }
    destruct Hdrop as [rest ->]. rewrite strftime_all_null_first. by eexists.
Qed.

Lemma line_chart_null_dates_witness :
  (exists fig tr h',
      plot_line_chart 0%nat "date" "Value1" FORMAT_TEMPLATES.number "Line Chart"
        CHART_COLORS.orange 2 45 "%B %y" [with_gap] = (Ok fig, h')
      /\ data fig = [tr]
      /\ series_len (tr_x tr) = 2%nat
      /\ date_column (tr_x tr) = true)
  /\ (exists h',
      plot_line_chart 0%nat "date" "Value1" FORMAT_TEMPLATES.number "Line Chart"
        CHART_COLORS.orange 3 45 "%B %y" [with_gap]
      = (Raise (AttributeError "strftime"), h')).
Proof.
  split.
  - apply (proj1 (line_chart_null_dates [with_gap] 0%nat with_gap "date" "Value1"
                    [None; day_of 2022 January 1; day_of 2022 February 1]
                    (Int64 [Some 100; Some 200; Some 150])
                    FORMAT_TEMPLATES.number "Line Chart" CHART_COLORS.orange
                    2 45 "%B %y" eq_refl eq_refl eq_refl ltac:(lia))).
    cbn. lia.
  - apply (proj2 (line_chart_null_dates [with_gap] 0%nat with_gap "date" "Value1"
                    [None; day_of 2022 January 1; day_of 2022 February 1]
                    (Int64 [Some 100; Some 200; Some 150])
                    FORMAT_TEMPLATES.number "Line Chart" CHART_COLORS.orange
                    3 45 "%B %y" eq_refl eq_refl eq_refl ltac:(lia))).
    cbn. lia.
Defined.

(** *** Columns of the wrong dtype *)

Lemma strftime_all_empty fmt s :
  series_len s = 0%nat -> strftime_all fmt s = Ok [].
Proof. by destruct s as [[|??]|[|??]|[|??]|[|??]]. Qed.

Lemma strftime_all_not_dates fmt s :
  date_dtype s = false -> (1 <= series_len s)%nat ->
  strftime_all fmt s = Raise (AttributeError "strftime").
Proof.
  destruct s as [[|[?|] ?]|[|[?|] ?]|[|[?|] ?]|[|[?|] ?]]; cbn; try done; lia.
Qed.

Lemma tail_len_positive n len :
  0 < n -> (1 <= len)%nat -> (1 <= tail_len n len)%nat.
Proof. intros Hn Hlen. unfold tail_len. destruct (Z.ltb_spec n 0); lia. Qed.

(** X5: it is the tick labels, not the sort, that need dates.  When
    [date_col] names a column of numbers or strings, [plot_line_chart]
    sorts by it all the same and raises [AttributeError] only when it
    formats the first tick, which takes a positive [n_points] and a table
    with a row; with [n_points = 0] there is no tick and it returns a
    figure without points. *)
Theorem line_chart_needs_dates h rf (df : DataFrame) dc yv key ys
    yf ti co n ta fmt :
  h !! rf = Some df ->
  get_column df dc = Some key ->
  date_dtype key = false ->
  get_column df yv = Some ys ->
  (0 < n -> (1 <= series_len key)%nat ->
   exists sorted plot_data,
     plot_line_chart rf dc yv yf ti co n ta fmt h
       = (Raise (AttributeError "strftime"), h ++ [sorted; plot_data]))
  /\ (n = 0 ->
      exists fig tr h',
        plot_line_chart rf dc yv yf ti co n ta fmt h = (Ok fig, h')
        /\ data fig = [tr]
        /\ series_len (tr_x tr) = 0%nat
        /\ xaxis_ticktext (layout fig) = Some []).
Proof.
  intros Hdf Hkey Hdtype Hys.
  apply list_lookup_total_correct in Hdf. subst df.
  rewrite plot_line_chart_run. cbv zeta. rewrite Hkey, Hys.
  assert (Hd : date_dtype (window n key key) = false) by by destruct key.
  split.
  - intros Hn Hrows. rewrite strftime_all_not_dates; [|done|].
    + eexists _, _. by rewrite <- app_assoc.
    + rewrite series_len_window. by apply tail_len_positive.
  - intros ->.
    assert (Hlen : series_len (window 0 key key) = 0%nat)
      by by rewrite series_len_window.
    rewrite strftime_all_empty by done.
    eexists _, _, _. split; [reflexivity|]. by split.
Qed.

Lemma line_chart_needs_dates_witness :
  exists sorted plot_data,
    plot_line_chart 0%nat "Value1" "Value2" FORMAT_TEMPLATES.number "Line Chart"
      CHART_COLORS.orange 12 45 "%B %y" [demo]
    = (Raise (AttributeError "strftime"), [demo] ++ [sorted; plot_data]).
Proof.
  apply (proj1 (line_chart_needs_dates [demo] 0%nat demo "Value1" "Value2"
                  demo_value1 demo_value2 FORMAT_TEMPLATES.number "Line Chart"
                  CHART_COLORS.orange 12 45 "%B %y"
                  eq_refl eq_refl eq_refl eq_refl)).
  - lia.
  - cbn. lia.
Defined.

(** *** The scale factor *)

Lemma float_div_by_zero z :
  float_div (Finite (inject_Z z)) 0 = if z =? 0 then NaN else Infinity (z <? 0).
Proof.
  destruct (Z.eqb_spec z 0) as [->|Hz]; [reflexivity|].
  unfold float_div. cbn [Z.eqb].
  destruct (Qeq_bool (inject_Z z) 0) eqn:Heq.
  { apply Qeq_bool_iff in Heq. unfold Qeq in Heq. cbn in Heq. lia. }
  f_equal. destruct (Qle_bool 0 (inject_Z z)) eqn:Hle.
  - apply Qle_bool_iff in Hle. unfold Qle in Hle. cbn in Hle.
    destruct (Z.ltb_spec z 0); [lia|done].
  - destruct (Z.ltb_spec z 0); [done|].
    assert (Qle_bool 0 (inject_Z z) = true); [|congruence].
    apply Qle_bool_iff. unfold Qle. cbn. lia.
Qed.

(** X6: a scale factor of zero raises nothing.  [plot_bar_chart] divides
    an integer column as floats, so every value that is present becomes an
    infinity of its own sign, or NaN when it was zero, and the figure is
    returned. *)
Theorem bar_chart_zero_scale_factor h rf (df : DataFrame) xa xs vs ti co vc n :
  h !! rf = Some df ->
  get_column df vc = Some (Int64 vs) ->
  get_column df xa = Some xs ->
  date_column xs = true ->
  exists fig tr h',
    plot_bar_chart rf xa vc ti co vc 0 n h = (Ok fig, h')
    /\ data fig = [tr]
    /\ tr_y tr
       = Float64 (list_tail n
           (map_cells (fun z => if z =? 0 then NaN else Infinity (z <? 0)) vs)).
Proof.
  intros Hdf Hvs Hxs Hdates.
  apply list_lookup_total_correct in Hdf. subst df.
  erewrite plot_bar_chart_ok; [|done|reflexivity|done..].
  eexists _, _, _. split; [reflexivity|]. split; [reflexivity|].
  cbn [tr_y]. rewrite decide_True by done.
  unfold series_tail, series_lift. do 2 f_equal.
  unfold map_cells. apply list_fmap_ext. intros _ [z|] _; [|done].
  unfold option_map. f_equal. apply float_div_by_zero.
Qed.

Lemma bar_chart_zero_scale_factor_witness :
  exists fig tr h',
    plot_bar_chart 0%nat "date" "Monto_Efectivo" "Bar Chart" CHART_COLORS.orange
      "Monto_Efectivo" 0 12 [demo] = (Ok fig, h')
    /\ data fig = [tr]
    /\ tr_y tr
       = Float64 (list_tail 12
           (map_cells (fun z => if z =? 0 then NaN else Infinity (z <? 0))
              [Some 2500000; Some 1000000; Some 4000000])).
Proof.
  apply (bar_chart_zero_scale_factor [demo] 0%nat demo "date" demo_dates
           [Some 2500000; Some 1000000; Some 4000000]);
    reflexivity.
Defined.

(** X7: [plot_bar_chart] needs a numeric [value_column] even when another
    column is plotted.  If [value_column] holds dates or strings the
    division raises [InvalidOperationError] before any frame is made:
    no figure is returned and the store is left exactly as it was. *)
Theorem bar_chart_needs_numeric_value_column h rf (df : DataFrame)
    xa yv vs ti co vc k n :
  h !! rf = Some df ->
  get_column df vc = Some vs ->
  numeric_column vs = false ->
  plot_bar_chart rf xa yv ti co vc k n h = (Raise (InvalidOperationError vc), h).
Proof.
  intros Hdf Hvs Hnum. apply list_lookup_total_correct in Hdf. subst df.
  rewrite plot_bar_chart_run. cbv zeta. rewrite Hvs. by destruct vs.
Qed.

Lemma bar_chart_needs_numeric_value_column_witness :
  plot_bar_chart 0%nat "date" "Value1" "Bar Chart" CHART_COLORS.orange
    "date" 1000000 12 [demo]
  = (Raise (InvalidOperationError "date"), [demo]).
Proof.
  apply (bar_chart_needs_numeric_value_column [demo] 0%nat demo "date" "Value1"
           demo_dates);
    reflexivity.
Defined.

(** *** Tick labels of the other two builders *)

(** X8: in the figures of [plot_dual_line_chart] and [plot_bar_chart], as
    in the line chart, the tick values are the x values of the series and
    there is one tick label per x value, in the same order: the date at
    that position in [date_format], and for the bar chart in the month and
    full year format. *)
Theorem dual_and_bar_tick_labels h rf (df : DataFrame) :
  h !! rf = Some df ->
  (forall dc y1c y2c key y1 y2 ti n1 n2 c1 c2 f1 f2 fmt ta n,
      get_column df dc = Some key -> date_column key = true ->
      get_column df y1c = Some y1 -> get_column df y2c = Some y2 ->
      exists fig h' dates,
        plot_dual_line_chart rf dc y1c y2c ti n1 n2 c1 c2 f1 f2 fmt ta n h
          = (Ok fig, h')
        /\ tr_x <$> data fig = [Date (Some <$> dates); Date (Some <$> dates)]
        /\ xaxis_tickvals (layout fig) = Some (Date (Some <$> dates))
        /\ xaxis_ticktext (layout fig) = Some (strftime fmt <$> dates))
  /\ (forall xa yv xs ys vs ti co vc k n,
      get_column df vc = Some vs -> numeric_column vs = true ->
      get_column df xa = Some xs -> date_column xs = true ->
      get_column df yv = Some ys ->
      exists fig h' dates,
        plot_bar_chart rf xa yv ti co vc k n h = (Ok fig, h')
        /\ tr_x <$> data fig = [Date (Some <$> dates)]
        /\ xaxis_tickvals (layout fig) = Some (Date (Some <$> dates))
        /\ xaxis_ticktext (layout fig) = Some (strftime "%B %Y" <$> dates)).
Proof.
  intros Hdf. apply list_lookup_total_correct in Hdf. subst df. split.
  - intros dc y1c y2c key y1 y2 ti n1 n2 c1 c2 f1 f2 fmt ta n
      Hkey Hdates Hy1 Hy2.
    erewrite plot_dual_line_chart_ok by done.
    eexists _, _, (series_dates (window n key key)).
    split; [reflexivity|]. cbn.
    by rewrite <- window_date_column.
  - intros xa yv xs ys vs ti co vc k n Hvs Hnum Hxs Hdates Hys.
    assert (exists q, series_div vs k = Some q) as [q Hq]
      by (destruct vs; try done; by eexists).
    erewrite plot_bar_chart_ok by done.
    eexists _, _, (series_dates (series_tail n xs)).
    split; [reflexivity|]. cbn.
    by rewrite <- tail_date_column.
Qed.

Lemma dual_and_bar_tick_labels_witness :
  exists fig h' dates,
    plot_bar_chart 0%nat "date" "Monto_Efectivo" "Bar Chart" CHART_COLORS.orange
      "Monto_Efectivo" 1000000 2 [demo] = (Ok fig, h')
    /\ tr_x <$> data fig = [Date (Some <$> dates)]
    /\ xaxis_tickvals (layout fig) = Some (Date (Some <$> dates))
    /\ xaxis_ticktext (layout fig) = Some (strftime "%B %Y" <$> dates).
Proof.
  apply (proj2 (dual_and_bar_tick_labels [demo] 0%nat demo eq_refl)
           "date" "Monto_Efectivo" demo_dates demo_monto demo_monto);
    reflexivity.
Defined.

(** *** A window larger than the table *)

Lemma frame_ok_Forall (df : DataFrame) :
  frame_ok df = true -> Forall (fun p => series_len p.2 = height df) df.
Proof.
  unfold frame_ok. rewrite forallb_forall, Forall_forall.
  intros Hall p Hp%list_elem_of_In. by apply Nat.eqb_eq, Hall.
Qed.

Lemma frame_tail_all n (df : DataFrame) len :
  Forall (fun p => series_len p.2 = len) df ->
  (len <= Z.to_nat n)%nat -> 0 <= n ->
  frame_tail n df = df.
Proof.
  intros Hall Hlen Hn. unfold frame_tail, frame_map.
  rewrite <- (list_fmap_id df) at 2. apply Forall_fmap_ext_1.
  eapply Forall_impl; [done|]. intros [c s] Hs. cbn in *.
  rewrite series_tail_all; [done|lia|done].
Qed.

Lemma frame_map_gather_len idx (df : DataFrame) :
  Forall (fun p => series_len p.2 = length idx)
    (frame_map (series_gather idx) df).
Proof.
  unfold frame_map. apply Forall_fmap, Forall_true.
  intros [c s]. cbn. apply series_len_gather.
Qed.

Lemma window_all n key s :
  (series_len key <= Z.to_nat n)%nat -> 0 <= n ->
  window n key s = series_gather (series_arg_sort key) s.
Proof.
  intros Hlen Hn. unfold window.
  rewrite series_tail_all; [done| |done].
  by rewrite series_len_gather, length_series_arg_sort.
Qed.

Lemma series_len_div vs k q :
  series_div vs k = Some q -> series_len q = series_len vs.
Proof.
  destruct vs; intros [= <-]; cbn; unfold map_cells; by rewrite length_fmap.
Qed.

Lemma replace_column_len name q (df : DataFrame) len :
  Forall (fun p => series_len p.2 = len) df ->
  series_len q = len ->
  Forall (fun p => series_len p.2 = len) (replace_column name q df).
Proof.
  intros Hall Hq. unfold replace_column. apply Forall_fmap.
  eapply Forall_impl; [done|]. intros [c s] Hs. cbn in *.
  by destruct (decide (c = name)).
Qed.

(** X9: once [n_points] reaches the number of rows, raising it further,
    as far as [tail] takes it (below [2^64]), changes nothing: any two such
    values give the same outcome, figure or error, and the same frames,
    for each of the three builders. *)
Theorem n_points_beyond_rows h rf (df : DataFrame) n m :
  h !! rf = Some df ->
  frame_ok df = true ->
  0 <= n -> 0 <= m ->
  n < tail_limit -> m < tail_limit ->
  (height df <= Z.to_nat n)%nat ->
  (height df <= Z.to_nat m)%nat ->
  (forall dc yv yf ti co ta fmt,
      plot_line_chart rf dc yv yf ti co n ta fmt h
      = plot_line_chart rf dc yv yf ti co m ta fmt h)
  /\ (forall dc y1c y2c ti n1 n2 c1 c2 f1 f2 fmt ta,
      plot_dual_line_chart rf dc y1c y2c ti n1 n2 c1 c2 f1 f2 fmt ta n h
      = plot_dual_line_chart rf dc y1c y2c ti n1 n2 c1 c2 f1 f2 fmt ta m h)
  /\ (forall xa yv ti co vc k,
      plot_bar_chart rf xa yv ti co vc k n h
      = plot_bar_chart rf xa yv ti co vc k m h).
Proof.
  intros Hdf Hok Hn Hm _ _ Hlen_n Hlen_m.
  pose proof (fun c s => frame_ok_height df c s Hok) as Hheight.
  apply frame_ok_Forall in Hok.
  apply list_lookup_total_correct in Hdf. subst df.
  split; [|split].
  - intros dc yv yf ti co ta fmt. rewrite !plot_line_chart_run. cbv zeta.
    destruct (get_column (h !!! rf) dc) as [key|] eqn:Hkey; [|done].
    assert (Hk : series_len key = height (h !!! rf)) by by eapply Hheight.
    rewrite !(frame_tail_all _ _ _ (frame_map_gather_len _ _))
      by (rewrite ?length_series_arg_sort; lia).
    destruct (get_column (h !!! rf) yv) as [ys|]; [|done].
    by rewrite !(window_all n), !(window_all m) by lia.
  - intros dc y1c y2c ti n1 n2 c1 c2 f1 f2 fmt ta.
    rewrite !plot_dual_line_chart_run. cbv zeta.
    destruct (get_column (h !!! rf) dc) as [key|] eqn:Hkey; [|done].
    assert (Hk : series_len key = height (h !!! rf)) by by eapply Hheight.
    rewrite !(frame_tail_all _ _ _ (frame_map_gather_len _ _))
      by (rewrite ?length_series_arg_sort; lia).
    destruct (get_column (h !!! rf) y1c) as [y1|]; [|done].
    destruct (get_column (h !!! rf) y2c) as [y2|]; [|done].
    by rewrite !(window_all n), !(window_all m) by lia.
  - intros xa yv ti co vc k. rewrite !plot_bar_chart_run. cbv zeta.
    destruct (get_column (h !!! rf) vc) as [vs|] eqn:Hvs; [|done].
    destruct (series_div vs k) as [q|] eqn:Hq; [|done].
    assert (Hall : Forall (fun p => series_len p.2 = height (h !!! rf))
                     (replace_column vc q (h !!! rf))).
    { apply replace_column_len; [done|].
      erewrite series_len_div by done. by eapply Hheight. }
    by rewrite !(frame_tail_all _ _ _ Hall) by done.
Qed.

Lemma n_points_beyond_rows_witness :
  plot_line_chart 0%nat "date" "Value1" FORMAT_TEMPLATES.number "Line Chart"
    CHART_COLORS.orange 3 45 "%B %y" [demo]
  = plot_line_chart 0%nat "date" "Value1" FORMAT_TEMPLATES.number "Line Chart"
      CHART_COLORS.orange 12 45 "%B %y" [demo].
Proof.
  apply (proj1 (n_points_beyond_rows [demo] 0%nat demo 3 12 eq_refl eq_refl
                  ltac:(lia) ltac:(lia) eq_refl eq_refl
                  ltac:(cbn; lia) ltac:(cbn; lia))).
Defined.

(** ** The page *)

Lemma ui_bind_run {A B} (m : UI A) (k : A -> UI B) s :
  (m ≫= k) s =
    match m s with
    | (Ok a, s') => k a s'
    | (Raise e, s') => (Raise e, s')
    end.
Proof. reflexivity. Qed.

(** X10: the label of the source expander.  [show_function_code] uses the
    label it is given unless that is [None] or the empty string, in which
    case it falls back to the memo sign and the name of the function; the
    expander is therefore never drawn without a label.  It draws the
    collapsed expander, then the source inside it, and leaves the frames
    and the current container as they were. *)
Theorem show_function_code_label getsource func label s :
  exists shown,
    show_function_code getsource func label s
      = (Ok tt,
         mkApp (app_frames s) (app_current s)
           (app_page s
            ++ [(app_current s, Expander shown false);
                (ExpanderOf (app_current s) shown,
                 Code (getsource func) "python")]))
    /\ shown <> EmptyString
    /\ (label = None \/ label = Some EmptyString ->
        shown = "📝 " +:+ dunder_name func)
    /\ (forall given, label = Some given -> given <> EmptyString ->
        shown = given).
Proof.
  exists (or_else label ("📝 " +:+ dunder_name func)).
  split; [|split; [|split]].
  - unfold show_function_code, st_expander, with_, st, draw_in.
    rewrite ui_bind_run. cbn. by rewrite <- app_assoc.
  - by destruct label as [[|c given]|].
  - by intros [-> | ->].
  - intros given -> Hne. by destruct given.
Qed.

Lemma show_function_code_label_witness :
  exists shown,
    show_function_code (fun _ => "def f(): pass") plot_bar_chart_fn
      (Some EmptyString) (fresh_app [])
      = (Ok tt,
         mkApp [] Main
           ([] ++ [(Main, Expander shown false);
                   (ExpanderOf Main shown, Code "def f(): pass" "python")]))
    /\ shown = "📝 " +:+ dunder_name plot_bar_chart_fn.
Proof.
  destruct (show_function_code_label (fun _ => "def f(): pass")
              plot_bar_chart_fn (Some EmptyString) (fresh_app []))
    as (shown & Hrun & _ & Hdefault & _).
  exists shown. split; [exact Hrun|]. apply Hdefault. by right.
Defined.

Lemma height_frame_head n (df : DataFrame) :
  0 <= n -> height (frame_head n df) = Nat.min (Z.to_nat n) (height df).
Proof.
  intros Hn. destruct df as [|[c s] df]; cbn; [lia|].
  unfold list_head. destruct (Z.ltb_spec n 0); [lia|].
  destruct s; cbn; by rewrite length_take.
Qed.

Lemma width_frame_head n (df : DataFrame) : width (frame_head n df) = width df.
Proof. unfold width, frame_head, frame_map. by rewrite length_fmap. Qed.

Lemma frame_map_names f (df : DataFrame) : (frame_map f df).*1 = df.*1.
Proof.
  unfold frame_map. induction df as [|[c s] df IH]; [done|].
  cbn. by rewrite IH.
Qed.

Lemma get_column_frame_head (df : DataFrame) c :
  get_column (frame_head 10 df) c
  = series_lift (fun _ => take 10) <$> get_column df c.
Proof.
  unfold frame_head. rewrite get_column_frame_map.
  destruct (get_column df c) as [[]|]; reflexivity.
Qed.

(** X11: the data preview.  For every table, [render_data_preview] draws a
    collapsed expander holding a view of the table cut to its first ten
    rows (all of them when the table has fewer): the view has the columns
    of the table, in order, each with its first ten cells.  The caption
    counts the rows and columns of the whole table, and the table itself
    is not changed. *)
Theorem data_preview_shows_ten_rows s table (df : DataFrame) :
  app_frames s !! table = Some df ->
  exists shown : DataFrame,
    render_data_preview table s
      = (Ok tt,
         mkApp (app_frames s ++ [shown]) (app_current s)
           (app_page s
            ++ [(app_current s, Expander "📋 View Sample Data" false);
                (ExpanderOf (app_current s) "📋 View Sample Data",
                 DataframeView shown true);
                (ExpanderOf (app_current s) "📋 View Sample Data",
                 Caption ("Dataset contains " +:+ format_thousands (height df)
                          +:+ " rows and " +:+ pretty (width df)
                          +:+ " columns"))]))
    /\ shown.*1 = df.*1
    /\ (forall c, get_column shown c
                  = series_lift (fun _ => take 10) <$> get_column df c)
    /\ height shown = Nat.min 10 (height df)
    /\ width shown = width df
    /\ (app_frames s ++ [shown]) !! table = Some df.
Proof.
  intros Hdf. exists (frame_head 10 df).
  pose proof (lookup_lt_Some _ _ _ Hdf) as Hlt.
  pose proof (list_lookup_total_correct _ _ _ Hdf) as Hdf'.
  split; [|split; [|split; [|split; [|split]]]].
  - unfold render_data_preview, st_expander, with_, st, draw_in, on_frames,
      df_head, deref, alloc, mbind, UI_bind, M_bind, mret, UI_ret, M_ret.
    cbn. rewrite Hdf', store_fresh.
    rewrite lookup_total_app_l by done. rewrite Hdf'.
    by rewrite <- !app_assoc.
  - apply frame_map_names.
  - apply get_column_frame_head.
  - by apply height_frame_head.
  - apply width_frame_head.
  - by rewrite lookup_app_l.
Qed.

(** Twelve rows: the view stops at the tenth, the caption counts twelve. *)
Lemma data_preview_shows_ten_rows_witness :
  exists shown : DataFrame,
    render_data_preview 0%nat (fresh_app [twelve_rows])
      = (Ok tt,
         mkApp ([twelve_rows] ++ [shown]) Main
           ([] ++ [(Main, Expander "📋 View Sample Data" false);
                   (ExpanderOf Main "📋 View Sample Data",
                    DataframeView shown true);
                   (ExpanderOf Main "📋 View Sample Data",
                    Caption "Dataset contains 12 rows and 2 columns")]))
    /\ shown.*1 = ["row"; "name"]
    /\ get_column shown "row"
       = Some (Int64 (Some <$> [1; 2; 3; 4; 5; 6; 7; 8; 9; 10]))
    /\ get_column shown "name"
       = Some (Utf8 (Some <$> ["a"; "b"; "c"; "d"; "e"; "f"; "g"; "h"; "i";
                               "j"]))
    /\ height shown = 10%nat.
Proof.
  destruct (data_preview_shows_ten_rows (fresh_app [twelve_rows]) 0%nat
              twelve_rows eq_refl)
    as (shown & Hrun & Hnames & Hcols & Hheight & _).
  exists shown. split; [exact Hrun|]. split; [exact Hnames|].
  split; [rewrite Hcols; reflexivity|].
  split; [rewrite Hcols; reflexivity|exact Hheight].
Defined.

(** *** Steps of the page functions *)

Lemma st_run w s :
  st w s = (Ok tt, mkApp (app_frames s) (app_current s)
                     (app_page s ++ [(app_current s, w)])).
Proof. reflexivity. Qed.

Lemma st_columns_2_run s :
  st_columns_2 s
  = (Ok (ColumnOf (app_current s) 0, ColumnOf (app_current s) 1),
     mkApp (app_frames s) (app_current s)
       (app_page s ++ [(app_current s, Columns 2)])).
Proof. reflexivity. Qed.

Lemma on_frames_run {A} (m : M A) s res h' :
  m (app_frames s) = (res, h') ->
  on_frames m s = (res, mkApp h' (app_current s) (app_page s)).
Proof. intros Hm. unfold on_frames. by rewrite Hm. Qed.

Lemma render_chart_section_run getsource fig func column key s :
  render_chart_section getsource fig func column key true s
  = (Ok tt,
     mkApp (app_frames s) (app_current s)
       (app_page s
        ++ [(column, PlotlyChart fig true key);
            (column, Expander ("📝 " +:+ dunder_name func) false);
            (ExpanderOf column ("📝 " +:+ dunder_name func),
             Code (getsource func) "python")])).
Proof.
  unfold render_chart_section, show_function_code, st_expander, with_, st,
    draw_in, mbind, UI_bind.
  cbn. by rewrite <- !app_assoc.
Qed.

(** The frames a builder leaves behind still hold the table. *)
Lemma lookup_total_grown (h : store) a c rf :
  (rf < length h)%nat -> ((h ++ [a]) ++ [c]) !!! rf = h !!! rf.
Proof.
  intros Hlt. rewrite !lookup_total_app_l; [done|done|].
  rewrite length_app. lia.
Qed.

(** X12: the gallery draws both charts or none.  On a table with the
    [date] and [Value1] columns, [render_chart_gallery] builds both figures
    before it draws either.  With a [Value2] column it draws the line chart
    and its source in the first column and the dual chart and its source in
    the second, under two different keys, and both series of the dual chart
    use the number template.  Without it, the dual chart raises
    [ColumnNotFoundError] and the page shows the heading and the empty
    columns only: the line chart, although built, is not drawn. *)
Theorem gallery_draws_both_or_neither getsource s table (df : DataFrame) key y1 :
  app_frames s !! table = Some df ->
  get_column df "date" = Some key ->
  date_column key = true ->
  get_column df "Value1" = Some y1 ->
  let c := app_current s in
  (is_Some (get_column df "Value2") ->
   exists line dual s',
     render_chart_gallery getsource table s = (Ok tt, s')
     /\ app_page s'
        = app_page s
          ++ [(c, Subheader "📈 Chart Gallery"); (c, Columns 2);
              (ColumnOf c 0, PlotlyChart line true "demo_line_chart");
              (ColumnOf c 0, Expander "📝 plot_line_chart" false);
              (ExpanderOf (ColumnOf c 0) "📝 plot_line_chart",
               Code (getsource plot_line_chart_fn) "python");
              (ColumnOf c 1, PlotlyChart dual true "demo_dual_chart");
              (ColumnOf c 1, Expander "📝 plot_dual_line_chart" false);
              (ExpanderOf (ColumnOf c 1) "📝 plot_dual_line_chart",
               Code (getsource plot_dual_line_chart_fn) "python")]
     /\ tr_texttemplate <$> data line
        = [Some (bold_white ("%" +:+ FORMAT_TEMPLATES.number))]
     /\ tr_texttemplate <$> data dual
        = [Some ("%" +:+ FORMAT_TEMPLATES.number);
           Some ("%" +:+ FORMAT_TEMPLATES.number)]
     /\ app_current s' = c
     /\ app_frames s' !! table = Some df)
  /\ (get_column df "Value2" = None ->
      exists s',
        render_chart_gallery getsource table s
          = (Raise (ColumnNotFoundError "Value2"), s')
        /\ app_page s'
           = app_page s ++ [(c, Subheader "📈 Chart Gallery"); (c, Columns 2)]
        /\ app_current s' = c
        /\ app_frames s' !! table = Some df).
Proof.
  intros Hdf Hkey Hdates Hy1 c.
  pose proof (lookup_lt_Some _ _ _ Hdf) as Hlt.
  pose proof (list_lookup_total_correct _ _ _ Hdf) as Hdf'.
  rewrite <- Hdf' in Hkey, Hy1.
  unfold render_chart_gallery.
  rewrite ui_bind_run, st_run, ui_bind_run, st_columns_2_run, ui_bind_run.
  erewrite on_frames_run; [|by apply plot_line_chart_ok].
  cbn [app_frames app_current app_page].
  rewrite ui_bind_run.
  set (h1 := (app_frames s ++ _) ++ _).
  assert (Hh1 : h1 !!! table = app_frames s !!! table)
    by by apply lookup_total_grown.
  split.
  - intros [y2 Hy2]. rewrite <- Hdf' in Hy2.
    erewrite on_frames_run;
      [|apply plot_dual_line_chart_ok; cbn [app_frames]; rewrite ?Hh1; done].
    cbn [app_frames app_current app_page].
    rewrite ui_bind_run, render_chart_section_run.
    cbn [app_frames app_current app_page fst snd].
    rewrite render_chart_section_run.
    cbn [app_frames app_current app_page].
    eexists _, _, _. split; [reflexivity|].
    cbn [app_frames app_current app_page].
    split; [by rewrite <- !app_assoc|]. split; [done|]. split; [done|].
    split; [done|].
    rewrite lookup_app_l; [|rewrite length_app; unfold h1;
      rewrite !length_app; cbn; lia].
    rewrite lookup_app_l; [|unfold h1; rewrite !length_app; cbn; lia].
    unfold h1. rewrite !lookup_app_l; [done|done|rewrite length_app; lia].
  - intros Hy2. rewrite <- Hdf' in Hy2.
    erewrite on_frames_run; cycle 1.
    { rewrite plot_dual_line_chart_run. cbv zeta. cbn [app_frames].
      rewrite !Hh1, Hkey, Hy1, Hy2. reflexivity. }
    cbn [app_frames app_current app_page].
    eexists. split; [reflexivity|].
    cbn [app_frames app_current app_page].
    split; [by rewrite <- !app_assoc|]. split; [done|].
    rewrite lookup_app_l; [|rewrite length_app; unfold h1;
      rewrite !length_app; cbn; lia].
    rewrite lookup_app_l; [|unfold h1; rewrite !length_app; cbn; lia].
    unfold h1. rewrite !lookup_app_l; [done|done|rewrite length_app; lia].
Qed.

Lemma gallery_draws_both_or_neither_witness :
  exists s',
    render_chart_gallery (fun _ => "def f(): pass") 0%nat (fresh_app [same_day])
      = (Raise (ColumnNotFoundError "Value2"), s')
    /\ app_page s' = [] ++ [(Main, Subheader "📈 Chart Gallery"); (Main, Columns 2)]
    /\ app_current s' = Main
    /\ app_frames s' !! 0%nat = Some same_day.
Proof.
  apply (proj2 (gallery_draws_both_or_neither (fun _ => "def f(): pass")
                  (fresh_app [same_day]) 0%nat same_day
                  (Date [day_of 2022 January 1; day_of 2022 January 1])
                  (Int64 [Some 100; Some 200])
                  eq_refl eq_refl eq_refl eq_refl)).
  reflexivity.
Defined.

(** *** The demo data and the whole page *)

Lemma demo_dates_range :
  date_range_1mo (mkdate 2022 January 1) (mkdate 2024 January 1)
  = (fun k => add_months (mkdate 2022 January 1) (Z.of_nat k)) <$> seq 0 25.
Proof. vm_compute. reflexivity. Qed.

(** X13: the demo table is a valid input of the builders.  Whatever the
    three arrays of 25 integers drawn, [create_demo_data] returns a new
    table of 25 rows and the four columns [date], [Value1], [Value2] and
    [Monto_Efectivo], all of the same height; its dates are the first of
    every month from January 2022 to January 2024, each once, in ascending
    order and none missing, and its three value columns are numeric and
    hold the arrays unchanged. *)
Theorem demo_data_is_valid h value1 value2 monto :
  length value1 = 25%nat ->
  length value2 = 25%nat ->
  length monto = 25%nat ->
  exists date_df (demo_data : DataFrame) dates,
    create_demo_data value1 value2 monto h
      = (Ok (S (length h)), h ++ [date_df; demo_data])
    /\ demo_data.*1 = ["date"; "Value1"; "Value2"; "Monto_Efectivo"]
    /\ frame_ok demo_data = true
    /\ height demo_data = 25%nat
    /\ get_column demo_data "date" = Some (Date (Some <$> dates))
    /\ dates = (fun k => add_months (mkdate 2022 January 1) (Z.of_nat k))
                 <$> seq 0 25
    /\ StronglySorted (fun a c => date_leb a c = true /\ a <> c) dates
    /\ get_column demo_data "Value1" = Some (Int64 (Some <$> value1))
    /\ get_column demo_data "Value2" = Some (Int64 (Some <$> value2))
    /\ get_column demo_data "Monto_Efectivo" = Some (Int64 (Some <$> monto)).
Proof.
  intros H1 H2 H3.
  unfold create_demo_data, pl_DataFrame, df_with_columns.
  rewrite bind_run. unfold alloc at 1. rewrite bind_run. unfold deref at 1.
  rewrite store_fresh. unfold alloc. rewrite <- app_assoc, length_app.
  cbn [length]. rewrite Nat.add_1_r.
  set (dates := date_range_1mo _ _).
  assert (Hframe :
    frame_with_columns
      [("Value1", Int64 (Some <$> value1)); ("Value2", Int64 (Some <$> value2));
       ("Monto_Efectivo", Int64 (Some <$> monto))]
      [("date", Date (Some <$> dates))]
    = [("date", Date (Some <$> dates)); ("Value1", Int64 (Some <$> value1));
       ("Value2", Int64 (Some <$> value2));
       ("Monto_Efectivo", Int64 (Some <$> monto))]) by reflexivity.
  rewrite Hframe.
  assert (Hdates : length dates = 25%nat)
    by (unfold dates; by rewrite demo_dates_range).
  eexists _, _, dates. split; [reflexivity|].
  split; [reflexivity|]. split.
  { unfold frame_ok, height. cbn [forallb snd series_len].
    by rewrite !length_fmap, H1, H2, H3, Hdates. }
  split; [cbn [height series_len]; by rewrite length_fmap|].
  split; [reflexivity|]. split; [apply demo_dates_range|].
  split; [|done].
  unfold dates. rewrite demo_dates_range. vm_compute.
  repeat (constructor; [|repeat (constructor; [by split|]); constructor]).
  constructor.
Qed.

Lemma demo_data_is_valid_witness :
  exists date_df (demo_data : DataFrame) dates,
    create_demo_data (replicate 25 500) (replicate 25 800)
      (replicate 25 1000000) []
      = (Ok (S (length ([] : store))), [] ++ [date_df; demo_data])
    /\ demo_data.*1 = ["date"; "Value1"; "Value2"; "Monto_Efectivo"]
    /\ frame_ok demo_data = true
    /\ height demo_data = 25%nat
    /\ get_column demo_data "date" = Some (Date (Some <$> dates))
    /\ dates = (fun k => add_months (mkdate 2022 January 1) (Z.of_nat k))
                 <$> seq 0 25
    /\ StronglySorted (fun a c => date_leb a c = true /\ a <> c) dates
    /\ get_column demo_data "Value1" = Some (Int64 (Some <$> replicate 25 500))
    /\ get_column demo_data "Value2" = Some (Int64 (Some <$> replicate 25 800))
    /\ get_column demo_data "Monto_Efectivo"
       = Some (Int64 (Some <$> replicate 25 1000000)).
Proof.
  apply (demo_data_is_valid [] (replicate 25 500) (replicate 25 800)
           (replicate 25 1000000));
    reflexivity.
Defined.

Ltac as_25 v H :=
  do 25 (destruct v as [|? v]; [done|]); destruct v; [clear H|done].

(** X14: the page renders for every draw.  Started on an empty app,
    [show_plotting_page] raises nothing whatever the three arrays of 25
    integers drawn.  It draws sixteen widgets, among them exactly two
    charts, the line chart in the first column and the dual chart in the
    second, under different keys; both show the last twelve months of the
    demo data, February 2023 to January 2024, with the last twelve values
    of the columns they plot, and the preview counts 25 rows and 4
    columns.  [plot_bar_chart] is not drawn. *)
Theorem plotting_page_renders getsource value1 value2 monto :
  length value1 = 25%nat ->
  length value2 = 25%nat ->
  length monto = 25%nat ->
  exists s' line dual,
    show_plotting_page getsource value1 value2 monto (fresh_app []) = (Ok tt, s')
    /\ length (app_page s') = 16%nat
    /\ chart_keys (app_page s')
       = [(ColumnOf Main 0, "demo_line_chart");
          (ColumnOf Main 1, "demo_dual_chart")]
    /\ page_figures (app_page s') = [line; dual]
    /\ xaxis_ticktext (layout line)
       = Some ["February 23"; "March 23"; "April 23"; "May 23"; "June 23";
               "July 23"; "August 23"; "September 23"; "October 23";
               "November 23"; "December 23"; "January 24"]
    /\ xaxis_ticktext (layout dual) = xaxis_ticktext (layout line)
    /\ tr_y <$> data line = [Int64 (Some <$> drop 13 value1)]
    /\ tr_y <$> data dual
       = [Int64 (Some <$> drop 13 value1); Int64 (Some <$> drop 13 value2)]
    /\ tr_kind <$> (data line ++ data dual) = [Scatter; Scatter; Scatter]
    /\ (ExpanderOf Main "📋 View Sample Data",
        Caption "Dataset contains 25 rows and 4 columns") ∈ app_page s'.
Proof.
  intros H1 H2 H3. as_25 value1 H1. as_25 value2 H2. as_25 monto H3.
  eexists _, _, _. split; [vm_compute; reflexivity|].
  split; [reflexivity|]. split; [reflexivity|]. split; [reflexivity|].
  split; [reflexivity|]. split; [reflexivity|]. split; [reflexivity|].
  split; [reflexivity|]. split; [reflexivity|].
  apply list_elem_of_lookup. by exists 4%nat.
Qed.

Lemma plotting_page_renders_witness :
  exists s' line dual,
    show_plotting_page (fun _ => "def f(): pass") (replicate 25 500)
      (replicate 25 800) (replicate 25 1000000) (fresh_app []) = (Ok tt, s')
    /\ length (app_page s') = 16%nat
    /\ chart_keys (app_page s')
       = [(ColumnOf Main 0, "demo_line_chart");
          (ColumnOf Main 1, "demo_dual_chart")]
    /\ page_figures (app_page s') = [line; dual]
    /\ xaxis_ticktext (layout line)
       = Some ["February 23"; "March 23"; "April 23"; "May 23"; "June 23";
               "July 23"; "August 23"; "September 23"; "October 23";
               "November 23"; "December 23"; "January 24"]
    /\ xaxis_ticktext (layout dual) = xaxis_ticktext (layout line)
    /\ tr_y <$> data line = [Int64 (Some <$> drop 13 (replicate 25 500))]
    /\ tr_y <$> data dual
       = [Int64 (Some <$> drop 13 (replicate 25 500));
          Int64 (Some <$> drop 13 (replicate 25 800))]
    /\ tr_kind <$> (data line ++ data dual) = [Scatter; Scatter; Scatter]
    /\ (ExpanderOf Main "📋 View Sample Data",
        Caption "Dataset contains 25 rows and 4 columns") ∈ app_page s'.
Proof.
  apply (plotting_page_renders (fun _ => "def f(): pass") (replicate 25 500)
           (replicate 25 800) (replicate 25 1000000));
    reflexivity.
Defined.

(** ** A table that is already in date order *)

Lemma month_number_inj (m1 m2 : month) :
  month_number m1 = month_number m2 -> m1 = m2.
Proof. by destruct m1, m2. Qed.

Lemma date_leb_antisym (a c : date) :
  date_leb a c = true -> date_leb c a = true -> a = c.
Proof.
  rewrite !date_leb_spec. intros Hac Hca.
  destruct a as [ya ma da], c as [yc mc dc]. cbn in *.
  assert (ya = yc) as -> by lia.
  assert (month_number ma = month_number mc) as ->%month_number_inj by lia.
  f_equal. lia.
Qed.

Lemma ascending_NoDup ds : ascending ds -> NoDup ds.
Proof.
  induction 1 as [|a ds _ IH Hall]; constructor; [|done].
  intros Hin. rewrite Forall_forall in Hall. by destruct (Hall a Hin).
Qed.

Lemma nulls_first_date_trans (a c e : option date) :
  nulls_first_leb date_leb a c -> nulls_first_leb date_leb c e ->
  nulls_first_leb date_leb a e.
Proof.
  destruct a as [a|], c as [c|], e as [e|]; cbn; try done.
  intros Hac%Is_true_true Hce%Is_true_true.
  apply Is_true_true. by eapply date_leb_trans.
Qed.

Global Instance key_le_trans : Transitive (key_le date_leb).
Proof.
  intros [a i] [c j] [e k]. unfold key_le. cbn [fst snd].
  intros [Hac Tac]%andb_True [Hce Tce]%andb_True.
  apply andb_True. split; [by eapply nulls_first_date_trans|].
  apply orb_True.
  destruct (nulls_first_leb date_leb e a) eqn:Hea; [right|by left].
  apply Is_true_true in Hea.
  pose proof (nulls_first_date_trans _ _ _ Hce Hea) as Hca.
  pose proof (nulls_first_date_trans _ _ _ Hea Hac) as Hec.
  apply orb_True in Tac as [Tac|Tac];
    [by apply negb_True in Tac|].
  apply orb_True in Tce as [Tce|Tce];
    [by apply negb_True in Tce|].
  apply Is_true_true, Nat.leb_le in Tac, Tce.
  apply Is_true_true, Nat.leb_le. lia.
Qed.

Lemma ascending_pairs ds start :
  ascending ds ->
  StronglySorted (key_le date_leb) (zip (Some <$> ds) (seq start (length ds))).
Proof.
  intros Hasc. revert start.
  induction Hasc as [|a ds _ IH Hall]; intros start; cbn; constructor; [done|].
  apply Forall_forall. intros [c j] Hin.
  apply elem_of_zip_l, list_elem_of_fmap in Hin as (c' & -> & Hc).
  rewrite Forall_forall in Hall. destruct (Hall c' Hc) as [Hle Hne].
  unfold key_le. cbn. rewrite Hle. cbn.
  destruct (date_leb c' a) eqn:Hback; [|done].
  by destruct Hne; apply date_leb_antisym.
Qed.

(** Sorting a column of strictly ascending dates moves no row. *)
Lemma arg_sort_ascending ds :
  ascending ds ->
  arg_sort date_leb (Some <$> ds) = seq 0 (length ds).
Proof.
  intros Hasc. unfold arg_sort. rewrite length_fmap.
  set (pairs := zip (Some <$> ds) (seq 0 (length ds))).
  assert (Hsame : merge_sort (key_le date_leb) pairs = pairs).
  { apply (StronglySorted_unique_strong (key_le date_leb)).
    - intros [k1 i] [k2 j] Hin1 Hin2 H12 H21.
      rewrite merge_sort_Permutation in Hin1.
      apply list_elem_of_lookup in Hin1 as [p1 Hp1], Hin2 as [p2 Hp2].
      apply lookup_zip_Some in Hp1 as [Hk1 Hi], Hp2 as [Hk2 Hj].
      apply lookup_seq in Hi as [-> _], Hj as [-> _]. cbn in *.
      rewrite list_lookup_fmap in Hk1, Hk2.
      destruct (ds !! p1) as [a|] eqn:Ha; [|done].
      destruct (ds !! p2) as [c|] eqn:Hc; [|done].
      cbn in Hk1, Hk2. injection Hk1 as <-. injection Hk2 as <-.
      apply key_le_keys in H12, H21. cbn in H12, H21.
      apply Is_true_true in H12, H21.
      assert (a = c) as -> by by apply date_leb_antisym.
      assert (p1 = p2) as ->; [|done].
      eapply NoDup_lookup; [by apply ascending_NoDup|done..].
    - apply StronglySorted_merge_sort; [apply _|].
      apply key_le_total, date_leb_total.
    - by apply ascending_pairs.
    - apply merge_sort_Permutation. }
  rewrite Hsame. unfold pairs. apply snd_zip.
  by rewrite length_fmap, length_seq.
Qed.

Lemma gather_all {A} (cells : list (option A)) :
  gather (seq 0 (length cells)) cells = cells.
Proof.
  unfold gather. apply list_eq. intros i. rewrite list_lookup_fmap.
  destruct (cells !! i) as [c|] eqn:Hc.
  - rewrite lookup_seq_lt by by eapply lookup_lt_Some. cbn. by rewrite Hc.
  - rewrite lookup_seq_ge; [done|]. by apply lookup_ge_None.
Qed.

Lemma series_gather_all s : series_gather (seq 0 (series_len s)) s = s.
Proof. destruct s; cbn; f_equal; apply gather_all. Qed.

Lemma omap_id_Some {A} (xs : list A) : omap id (Some <$> xs) = xs.
Proof. induction xs as [|a xs IH]; [done|]. cbn. by rewrite IH. Qed.

(** X15: sorting changes nothing on a table that is already in date order.
    When the dates of the table are strictly ascending, as those of the
    demo data are, the series of [plot_line_chart] is exactly the last
    [n_points] rows of the table, dates and values as they stand. *)
Theorem line_chart_on_sorted_table h rf (df : DataFrame) dc yv ds ys
    yf ti co n ta fmt :
  h !! rf = Some df ->
  frame_ok df = true ->
  get_column df dc = Some (Date (Some <$> ds)) ->
  ascending ds ->
  get_column df yv = Some ys ->
  exists fig tr h',
    plot_line_chart rf dc yv yf ti co n ta fmt h = (Ok fig, h')
    /\ data fig = [tr]
    /\ tr_x tr = series_tail n (Date (Some <$> ds))
    /\ tr_y tr = series_tail n ys
    /\ xaxis_ticktext (layout fig) = Some (strftime fmt <$> list_tail n ds).
Proof.
  intros Hdf Hok Hkey Hasc Hys.
  assert (Hlen : series_len ys = length ds).
  { rewrite (frame_ok_height df yv ys), <- (frame_ok_height df dc _ Hok Hkey);
      [|done..].
    cbn. by rewrite length_fmap. }
  assert (Hdates : date_column (Date (Some <$> ds)) = true).
  { cbn. apply forallb_forall. intros c Hc%list_elem_of_In.
    apply list_elem_of_fmap in Hc as (a & -> & _).
    apply bool_decide_eq_true. by eexists. }
  apply list_lookup_total_correct in Hdf. subst df.
  erewrite plot_line_chart_ok by done.
  eexists _, _, _. split; [reflexivity|]. split; [reflexivity|].
  assert (Hrows : series_arg_sort (Date (Some <$> ds)) = seq 0 (length ds))
    by by apply arg_sort_ascending.
  assert (Hx : window n (Date (Some <$> ds)) (Date (Some <$> ds))
               = series_tail n (Date (Some <$> ds))).
  { unfold window. rewrite Hrows.
    replace (length ds) with (series_len (Date (Some <$> ds)))
      by (cbn; apply length_fmap).
    by rewrite series_gather_all. }
  cbn [tr_x tr_y layout xaxis_ticktext]. rewrite !Hx. split; [done|]. split.
  - unfold window. by rewrite Hrows, <- Hlen, series_gather_all.
  - do 2 f_equal. cbn. unfold list_tail. rewrite length_fmap.
    destruct (n <? 0); by rewrite <- fmap_drop, omap_id_Some.
Qed.

Lemma line_chart_on_sorted_table_witness :
  exists fig tr h',
    plot_line_chart 0%nat "date" "value" FORMAT_TEMPLATES.number "Line Chart"
      CHART_COLORS.orange 2 45 "%B %y" [scenario] = (Ok fig, h')
    /\ data fig = [tr]
    /\ tr_x tr
       = series_tail 2 (Date (Some <$> [mkdate 2022 January 1;
                                        mkdate 2022 February 1;
                                        mkdate 2022 March 1]))
    /\ tr_y tr = series_tail 2 (Int64 [Some 100; Some 200; Some 150])
    /\ xaxis_ticktext (layout fig)
       = Some (strftime "%B %y" <$> list_tail 2 [mkdate 2022 January 1;
                                                 mkdate 2022 February 1;
                                                 mkdate 2022 March 1]).
Proof.
  apply (line_chart_on_sorted_table [scenario] 0%nat scenario "date" "value"
           [mkdate 2022 January 1; mkdate 2022 February 1; mkdate 2022 March 1]
           (Int64 [Some 100; Some 200; Some 150]));
    [reflexivity | reflexivity | reflexivity | | reflexivity].
  repeat (constructor; [|repeat (constructor; [by split|]); constructor]).
  constructor.
Defined.

Lemma series_sorted_tail n s : series_sorted s -> series_sorted (series_tail n s).
Proof. destruct s; cbn; apply Sorted_list_tail. Qed.

(** X16: [plot_bar_chart] leaves the order of the bars to the caller.  On
    a table whose x column is in ascending order the bars are in ascending
    order too, and they are the last [n_points] rows of the table. *)
Theorem bar_chart_on_sorted_table h rf (df : DataFrame) xa yv xs ys vs
    ti co vc k n :
  h !! rf = Some df ->
  get_column df vc = Some vs ->
  numeric_column vs = true ->
  get_column df xa = Some xs ->
  date_column xs = true ->
  series_sorted xs ->
  get_column df yv = Some ys ->
  exists fig tr h',
    plot_bar_chart rf xa yv ti co vc k n h = (Ok fig, h')
    /\ data fig = [tr]
    /\ tr_x tr = series_tail n xs
    /\ series_sorted (tr_x tr).
Proof.
  intros Hdf Hvs Hnum Hxs Hdates Hsorted Hys.
  apply list_lookup_total_correct in Hdf. subst df.
  assert (exists q, series_div vs k = Some q) as [q Hq]
    by (destruct vs; try done; by eexists).
  erewrite plot_bar_chart_ok by done.
  eexists _, _, _. split; [reflexivity|]. split; [reflexivity|].
  split; [done|]. by apply series_sorted_tail.
Qed.

Lemma bar_chart_on_sorted_table_witness :
  exists fig tr h',
    plot_bar_chart 0%nat "date" "value" "Bar Chart" CHART_COLORS.orange
      "value" 100 2 [scenario] = (Ok fig, h')
    /\ data fig = [tr]
    /\ tr_x tr = series_tail 2 (Date [day_of 2022 January 1;
                                      day_of 2022 February 1;
                                      day_of 2022 March 1])
    /\ series_sorted (tr_x tr).
Proof.
  apply (bar_chart_on_sorted_table [scenario] 0%nat scenario "date" "value"
           (Date [day_of 2022 January 1; day_of 2022 February 1;
                  day_of 2022 March 1])
           (Int64 [Some 100; Some 200; Some 150])
           (Int64 [Some 100; Some 200; Some 150]));
    [reflexivity | reflexivity | reflexivity | reflexivity | reflexivity
    | | reflexivity].
  repeat constructor.
Defined.
